(** * optimization.py: the hyperparameter-optimisation dashboard

    A shallow embedding of [src/optimization.py].  The script is glue code:
    it reads the sidebar widgets, builds a parameter grid with [np.arange],
    and, when the "Build Model" button is pressed, runs [model(dataset)]
    followed by a report step written at module scope.

    Library code (NumPy, pandas, scikit-learn, Streamlit) is not part of the
    repository.  The parts of it whose documented behaviour the script's
    results depend on (integer [arange], the size rule of
    [train_test_split], [StandardScaler], the metrics, the pandas pivot) are
    modelled as plain functions in modules named after the library; the
    parts that are opaque (the random-forest search itself, the one-hot
    encoding, the global random generator) are calls of the program type
    [prog], answered by a [World].

    Floating-point results follow the textbook formulas on binary64
    values; NumPy's and pandas' own summation orders (pairwise, Kahan) can
    differ from them in the last bit.  Exception messages are shortened. *)

From Stdlib Require Import ZArith List Lia PrimFloat FloatOps.
From stdpp Require Import base option list gmap strings sorting pretty.
Import ListNotations.
Open Scope Z_scope.
Open Scope string_scope.

(** ** Python exceptions that the script can surface *)

Inductive exn : Type :=
| ValueError (msg : string)
| KeyError (key : string)
| NameError (name : string)
| IndexError
| TypeError (msg : string)
| ZeroDivisionError
| NotFittedError
| LibraryError (msg : string).

(** ** NumPy *)

Module np.

(** Ceiling of the quotient [a / b]; [Z.div] rounds towards minus
    infinity, like Python's [//]. *)
Definition ceil_div (a b : Z) : Z := - ((- a) / b).

(** [np.arange(start, stop, step)] on integers: the values
    [start + k * step] for [0 <= k < ceil((stop - start) / step)];
    a zero step raises [ZeroDivisionError]. *)
Definition arange (start stop step : Z) : option (list Z) :=
  if decide (step = 0) then None
  else Some ((fun k : nat => start + Z.of_nat k * step)
               <$> seq 0 (Z.to_nat (ceil_div (stop - start) step))).

End np.

(** ** Sidebar widgets (lines 20-41)

    One field per widget, named as the module-level variable that holds
    its value. *)

Record Sidebar : Type := {
  split_size : Z;
  parameter_n_estimators : Z * Z;
  parameter_n_estimators_step : Z;
  parameter_max_features : list string;
  parameter_max_depth : Z * Z;
  parameter_max_depth_step : Z;
  parameter_criterion : string;
  parameter_cross_validation : Z;
  parameter_random_state : Z;
  parameter_bootstrap : bool;
  parameter_n_jobs : Z
}.

(** The values the widgets can deliver: slider bounds and steps, the
    options of the multiselect (a sublist, in option order or in the order
    the user clicked), the bounds of the two [number_input]s. *)
Definition on_slider (lo hi step v : Z) : Prop :=
  lo <= v <= hi /\ (step | v - lo).

Definition sidebar_valid (s : Sidebar) : Prop :=
  on_slider 50 90 5 (split_size s) /\
  0 <= fst (parameter_n_estimators s) <= snd (parameter_n_estimators s) /\
  snd (parameter_n_estimators s) <= 500 /\
  10 <= parameter_n_estimators_step s /\
  (forall f, f ∈ parameter_max_features s -> f ∈ ["auto"; "sqrt"; "log2"]) /\
  5 <= fst (parameter_max_depth s) <= snd (parameter_max_depth s) /\
  snd (parameter_max_depth s) <= 15 /\
  1 <= parameter_max_depth_step s <= 3 /\
  parameter_criterion s ∈ ["gini"; "entropy"] /\
  2 <= parameter_cross_validation s <= 10 /\
  0 <= parameter_random_state s <= 1000 /\
  parameter_n_jobs s ∈ [1; -1].

(** The widgets' initial values (the third argument of each slider, the
    minimum of a [number_input], the first option of a select). *)
Definition default_sidebar : Sidebar := {|
  split_size := 80;
  parameter_n_estimators := (10, 50);
  parameter_n_estimators_step := 10;
  parameter_max_features := ["auto"];
  parameter_max_depth := (5, 8);
  parameter_max_depth_step := 1;
  parameter_criterion := "gini";
  parameter_cross_validation := 2;
  parameter_random_state := 42;
  parameter_bootstrap := true;
  parameter_n_jobs := 1
|}.

(** ** Grid construction (lines 44-46) *)

Record ParamGrid : Type := {
  max_features : list string;
  n_estimators : list Z;
  max_depth : list Z
}.

Definition n_estimators_range (s : Sidebar) : option (list Z) :=
  np.arange (fst (parameter_n_estimators s))
            (snd (parameter_n_estimators s) + parameter_n_estimators_step s)
            (parameter_n_estimators_step s).

Definition max_depth_range (s : Sidebar) : option (list Z) :=
  np.arange (fst (parameter_max_depth s))
            (snd (parameter_max_depth s) + parameter_max_depth_step s)
            (parameter_max_depth_step s).

(** [param_grid = dict(max_features=..., n_estimators=..., max_depth=...)];
    [None] when one of the two [arange] calls raised. *)
Definition param_grid (s : Sidebar) : option ParamGrid :=
  ne ← n_estimators_range s;
  md ← max_depth_range s;
  Some {| max_features := parameter_max_features s;
          n_estimators := ne;
          max_depth := md |}.

(** ** Floating-point helpers

    NumPy's [float64] is the kernel's binary64 [float]. *)

Fixpoint float_of_positive (p : positive) : float :=
  match p with
  | xH => 1
  | xO p => 2 * float_of_positive p
  | xI p => 2 * float_of_positive p + 1
  end%float.

Definition float_of_Z (z : Z) : float :=
  match z with
  | Z0 => 0
  | Zpos p => float_of_positive p
  | Zneg p => - float_of_positive p
  end%float.

Definition float_of_nat (n : nat) : float := float_of_Z (Z.of_nat n).

Definition fsum (l : list float) : float := foldr PrimFloat.add 0%float l.

(** Summation in storage order, first element first. *)
Definition fsum_left (l : list float) : float := fold_left PrimFloat.add l 0%float.

Definition nan : float := (0 / 0)%float.

(** The integer a float holds, when it holds one ([1.0] holds 1; 2.5,
    NaN and the infinities hold none). *)
Definition whole_number (f : float) : option Z :=
  match Prim2SF f with
  | SpecFloat.S754_zero _ => Some 0
  | SpecFloat.S754_finite sign m e =>
      let magnitude :=
        if decide (0 <= e) then Some (Z.pos m * 2 ^ e)
        else if decide (Z.pos m mod 2 ^ (- e) = 0) then Some (Z.pos m / 2 ^ (- e))
        else None in
      (fun v => if sign then - v else v) <$> magnitude
  | _ => None
  end.

(** ** pandas frames *)

(** A cell of a frame: an [int64] or a [float64] value. *)
Inductive cell : Type :=
| Int64 (z : Z)
| Float64 (f : float).

Definition to_float (c : cell) : float :=
  match c with
  | Int64 z => float_of_Z z
  | Float64 f => f
  end.

(** The class label in a cell: an integer, or a float that holds a whole
    number (scikit-learn takes both as discrete labels, and [1.0] for the
    same label as [1]); other floats are continuous values. *)
Definition label_of_cell (c : cell) : option Z :=
  match c with
  | Int64 z => Some z
  | Float64 f => whole_number f
  end.

(** Row-major frame with labelled columns (labels are taken to be
    distinct, as in a frame read from a CSV file). *)
Record DataFrame : Type := {
  columns : list string;
  rows : list (list cell)
}.

Abbreviation row := (list float) (only parsing).
Abbreviation matrix := (list (list float)) (only parsing).

(** ** scikit-learn objects *)

Record RandomForestClassifier : Type := {
  random_state : Z;
  bootstrap : bool;
  n_jobs : Z
}.

Record GridSearchCV : Type := {
  estimator : RandomForestClassifier;
  gs_param_grid : ParamGrid;
  cv : Z
}.

(** One grid point, an entry of [cv_results_["params"]]. *)
Record Params : Type := {
  p_max_depth : Z;
  p_max_features : string;
  p_n_estimators : Z
}.

(** What the script reads from a fitted search. *)
Record Fitted : Type := {
  cv_results_params : list Params;
  cv_results_mean_test_score : list float;
  best_params_ : Params;
  best_score_ : float;
  predict_one : row -> Z
}.

(** Per-class entry of [classification_report(..., output_dict=True)]. *)
Record ClassMetrics : Type := {
  precision : float;
  recall : float;
  f1_score : float;
  support : nat
}.

(** ** What the page shows *)

Inductive output : Type :=
| st_write (text : string)
| st_subheader (text : string)
| st_markdown (text : string)
| st_caption (text : string)
| st_write_frame (df : DataFrame)
| st_info (value : float)
| st_write_best (best : Params) (score : float)
| st_write_params (g : GridSearchCV)
| st_plotly_chart (x y : list Z) (z : list (list float))
| st_write_class (title : string) (m : ClassMetrics)
| st_pyplot (cm : list (list nat)).

(** ** Programs over the opaque library calls

    A run either returns, raises, shows something on the page, or asks the
    library: for a permutation of [0 .. n-1] from NumPy's global random
    generator, for the one-hot encoding of a frame, for the construction
    of a grid search (the constructor may reject its arguments), or for
    fitting it. *)

Inductive prog (A : Type) : Type :=
| Ret (a : A)
| Raise (e : exn)
| Emit (o : output) (k : prog A)
| Permutation (n : nat) (k : list nat -> prog A)
| GetDummies (df : DataFrame) (cols : list string) (k : DataFrame -> prog A)
| NewGridSearchCV (g : GridSearchCV) (k : prog A)
| Fit (g : GridSearchCV) (X : matrix) (Y : list cell) (k : Fitted -> prog A).

Arguments Ret {A} a.
Arguments Raise {A} e.
Arguments Emit {A} o k.
Arguments Permutation {A} n k.
Arguments GetDummies {A} df cols k.
Arguments NewGridSearchCV {A} g k.
Arguments Fit {A} g X Y k.

Fixpoint bind {A B : Type} (p : prog A) (f : A -> prog B) : prog B :=
  match p with
  | Ret a => f a
  | Raise e => Raise e
  | Emit o k => Emit o (bind k f)
  | Permutation n k => Permutation n (fun perm => bind (k perm) f)
  | GetDummies df cols k => GetDummies df cols (fun d => bind (k d) f)
  | NewGridSearchCV g k => NewGridSearchCV g (bind k f)
  | Fit g X Y k => Fit g X Y (fun r => bind (k r) f)
  end.

Definition lift {A : Type} (r : exn + A) : prog A :=
  match r with
  | inl e => Raise e
  | inr a => Ret a
  end.

Declare Scope prog_scope.
Delimit Scope prog_scope with prog.
Notation "'let*' x ':=' c1 'in' c2" := (bind c1 (fun x => c2))
  (at level 10, x pattern, c1 at level 100, c2 at level 200) : prog_scope.
Notation "c1 ;;; c2" := (bind c1 (fun _ => c2))
  (at level 100, right associativity) : prog_scope.

Definition emit (o : output) : prog unit := Emit o (Ret tt).
Definition np_random_permutation (n : nat) : prog (list nat) := Permutation n Ret.
Definition pd_get_dummies (df : DataFrame) (cols : list string) : prog DataFrame :=
  GetDummies df cols Ret.
Definition new_GridSearchCV (g : GridSearchCV) : prog GridSearchCV :=
  NewGridSearchCV g (Ret g).
Definition GridSearchCV_fit (g : GridSearchCV) (X : matrix) (Y : list cell) : prog Fitted :=
  Fit g X Y Ret.

(** The library's side of a run. *)
Record World : Type := {
  rng_permutation : nat -> list nat;
  get_dummies : DataFrame -> list string -> exn + DataFrame;
  gs_init : GridSearchCV -> option exn;
  gs_fit : GridSearchCV -> matrix -> list cell -> exn + Fitted
}.

(** Running a program in a world: what the page showed, in order, and how
    the run ended. *)
Fixpoint run {A : Type} (w : World) (p : prog A) : list output * (exn + A) :=
  match p with
  | Ret a => ([], inr a)
  | Raise e => ([], inl e)
  | Emit o k => let '(out, r) := run w k in (o :: out, r)
  | Permutation n k => run w (k (rng_permutation w n))
  | GetDummies df cols k =>
      match get_dummies w df cols with
      | inl e => ([], inl e)
      | inr d => run w (k d)
      end
  | NewGridSearchCV g k =>
      match gs_init w g with
      | Some e => ([], inl e)
      | None => run w k
      end
  | Fit g X Y k =>
      match gs_fit w g X Y with
      | inl e => ([], inl e)
      | inr r => run w (k r)
      end
  end.

Local Open Scope prog_scope.

(** ** NumPy and pandas helpers used by the models below *)

(** [np.unique]: the distinct values, ascending. *)
Definition sort_uniq (l : list Z) : list Z := merge_sort Z.le (remove_dups l).

Module pd.

Definition column_position (df : DataFrame) (name : string) : option nat :=
  fst <$> list_find (fun c => c = name) (columns df).

(** [df[name]]: the column as a series; [KeyError] when there is no such
    column. *)
Definition getitem (df : DataFrame) (name : string) : exn + list cell :=
  match column_position df name with
  | None => inl (KeyError name)
  | Some p =>
      match mapM (fun r : list cell => r !! p) (rows df) with
      | Some col => inr col
      | None => inl IndexError
      end
  end.

(** [df.drop([name], axis=1)] *)
Definition drop (df : DataFrame) (name : string) : exn + DataFrame :=
  match column_position df name with
  | None => inl (KeyError name)
  | Some p => inr {| columns := delete p (columns df);
                     rows := delete p <$> rows df |}
  end.

(** [df.head(n)] *)
Definition head (df : DataFrame) (n : nat) : DataFrame :=
  {| columns := columns df; rows := take n (rows df) |}.

(** The float array scikit-learn makes of a frame on entry. *)
Definition to_numpy (rs : list (list cell)) : matrix :=
  (fun r : list cell => to_float <$> r) <$> rs.

(** *** The score table and its pivot (lines 93-100) *)

Record ScoreRow : Type := {
  sr_max_depth : Z;
  sr_max_features : string;
  sr_n_estimators : Z;
  sr_accuracy : float
}.

(** [pd.concat([pd.DataFrame(params), pd.DataFrame(scores,
    columns=["accuracy"])], axis=1)]: joined on the row number; a row
    without a score gets NaN, a score without parameters has NaN keys
    and never reaches a group. *)
Definition concat (params : list Params) (scores : list float) : list ScoreRow :=
  zip_with (fun p a => {| sr_max_depth := p_max_depth p;
                          sr_max_features := p_max_features p;
                          sr_n_estimators := p_n_estimators p;
                          sr_accuracy := a |})
           params
           (scores ++ replicate (length params - length scores) nan).

(** Mean skipping NaN, as pandas reductions do; NaN when nothing is
    left. *)
Definition nanmean (l : list float) : float :=
  let v := filter (fun a => PrimFloat.is_nan a = false) l in
  (fsum v / float_of_nat (length v))%float.

Definition group (t : list ScoreRow) (d n : Z) : list float :=
  sr_accuracy <$> filter (fun r => sr_max_depth r = d /\ sr_n_estimators r = n) t.

(** The key pairs that occur in the table, ascending by depth, then by
    number of estimators. *)
Definition group_keys (t : list ScoreRow) : list (Z * Z) :=
  d ← sort_uniq (sr_max_depth <$> t);
  n ← sort_uniq (sr_n_estimators <$> t);
  if decide (group t d n = []) then [] else [(d, n)].

(** [t.groupby(['max_depth', 'n_estimators']).mean().reset_index()]:
    one row per key pair present, keys ascending; the text column
    [max_features] has no mean and is left out. *)
Definition groupby_mean (t : list ScoreRow) : list (Z * Z * float) :=
  (fun k => (k, nanmean (group t k.1 k.2))) <$> group_keys t.

Definition cell_at (t : list (Z * Z * float)) (d n : Z) : float :=
  match list_find (fun r => r.1 = (d, n)) t with
  | Some (_, r) => r.2
  | None => nan
  end.

(** [t.pivot('max_depth', 'n_estimators')] read as lines 98-100 do:
    [x] the second level of the column index, [y] the row index, [z] the
    values; a key pair listed twice cannot be reshaped. *)
Definition pivot (t : list (Z * Z * float)) : exn + (list Z * list Z * list (list float)) :=
  if decide (NoDup (fst <$> t)) then
    let x := sort_uniq ((fun r => r.1.2) <$> t) in
    let y := sort_uniq ((fun r => r.1.1) <$> t) in
    inr (x, y, (fun d => (fun n => cell_at t d n) <$> x) <$> y)
  else inl (ValueError "Index contains duplicate entries, cannot reshape").

(** Lines 94-100.  A table without rows comes from a frame without
    columns, and grouping it by column name raises [KeyError]. *)
Definition surface (grid_results : list ScoreRow) : exn + (list Z * list Z * list (list float)) :=
  match grid_results with
  | [] => inl (KeyError "max_depth")
  | _ => pivot (groupby_mean grid_results)
  end.

End pd.

Module sklearn.

(** *** [train_test_split] with an integer [test_size] *)

(** [_validate_shuffle_split] for an integer [test_size] and no
    [train_size]: the integer is the number of test samples. *)
Definition validate_shuffle_split (n_samples : nat) (test_size : Z) : exn + (nat * nat) :=
  if decide (test_size >= Z.of_nat n_samples \/ test_size <= 0) then
    inl (ValueError "test_size should be positive and smaller than the number of samples")
  else
    let n_test := Z.to_nat test_size in
    let n_train := (n_samples - n_test)%nat in
    if decide (n_train = 0%nat) then
      inl (ValueError "the resulting train set will be empty")
    else inr (n_train, n_test).

Definition safe_indexing {A : Type} (a : list A) (indices : list nat) : exn + list A :=
  match mapM (fun i : nat => a !! i) indices with
  | Some r => inr r
  | None => inl IndexError
  end.

(** [train_test_split(X, Y, test_size=test_size)]: no [random_state], so
    the shuffle is drawn from NumPy's global generator; the first
    [n_test] indices of the permutation are the test rows, the next
    [n_train] the training rows. *)
Definition train_test_split {A B : Type} (X : list A) (Y : list B) (test_size : Z)
  : prog (list A * list A * list B * list B) :=
  if decide (length X = length Y) then
    let* (n_train, n_test) := lift (validate_shuffle_split (length X) test_size) in
    let* permutation := np_random_permutation (length X) in
    let ind_test := take n_test permutation in
    let ind_train := take n_train (skipn n_test permutation) in
    let* X_train := lift (safe_indexing X ind_train) in
    let* X_test := lift (safe_indexing X ind_test) in
    let* Y_train := lift (safe_indexing Y ind_train) in
    let* Y_test := lift (safe_indexing Y ind_test) in
    Ret (X_train, X_test, Y_train, Y_test)
  else Raise (ValueError "Found input variables with inconsistent numbers of samples").

(** *** [StandardScaler] *)

(** The fitted attributes; [None] before [fit]. *)
Record StandardScaler : Type := {
  mean_ : option (list float);
  var_ : option (list float);
  scale_ : option (list float)
}.

Definition new_StandardScaler : StandardScaler :=
  {| mean_ := None; var_ := None; scale_ := None |}.

Definition column (X : matrix) (j : nat) : list float :=
  omap (fun r : row => r !! j) X.

(** The values of a feature that are present: [StandardScaler] leaves
    NaN out of its statistics. *)
Definition present (v : list float) : list float :=
  List.filter (fun x => negb (PrimFloat.is_nan x)) v.

Definition mean (v : list float) : float :=
  (fsum_left (present v) / float_of_nat (length (present v)))%float.

Definition variance (v : list float) : float :=
  let m := mean v in
  mean ((fun x => (x - m) * (x - m))%float <$> v).

Definition handle_zeros_in_scale (s : float) : float :=
  if PrimFloat.eqb s 0 then 1%float else s.

(** At least one sample, all rows of one width; returns the width. *)
Definition check_array (X : matrix) : exn + nat :=
  match X with
  | [] => inl (ValueError "Found array with 0 sample(s)")
  | r :: _ =>
      if decide (Forall (fun r' : row => length r' = length r) X) then inr (length r)
      else inl (ValueError "setting an array element with a sequence")
  end.

(** The [p] feature columns of [X]. *)
Definition feature_columns (p : nat) (X : matrix) : list (list float) :=
  column X <$> seq 0 p.

(** [sc.fit(X)]: per-feature mean and variance of [X], and the scale
    derived from the variance; earlier attributes are overwritten. *)
Definition fit (sc : StandardScaler) (X : matrix) : exn + StandardScaler :=
  match check_array X with
  | inl e => inl e
  | inr p =>
      let cols := feature_columns p X in
      inr {| mean_ := Some (mean <$> cols);
             var_ := Some (variance <$> cols);
             scale_ := Some ((fun c => handle_zeros_in_scale (PrimFloat.sqrt (variance c)))
                               <$> cols) |}
  end.

Definition scale_row (m s : list float) (r : row) : row :=
  zip_with (fun x ms => ((x - ms.1) / ms.2)%float) r (zip m s).

(** [sc.transform(X)]: reads the fitted attributes, changes none. *)
Definition transform (sc : StandardScaler) (X : matrix) : exn + matrix :=
  match mean_ sc, scale_ sc with
  | Some m, Some s =>
      match check_array X with
      | inl e => inl e
      | inr p =>
          if decide (p = length m) then inr (scale_row m s <$> X)
          else inl (ValueError "X has a different number of features than StandardScaler expects")
      end
  | _, _ => inl NotFittedError
  end.

(** [sc.fit_transform(X)]: fit, then transform the same data; the object
    keeps the fitted attributes. *)
Definition fit_transform (sc : StandardScaler) (X : matrix) : exn + (StandardScaler * matrix) :=
  match fit sc X with
  | inl e => inl e
  | inr sc' =>
      match transform sc' X with
      | inl e => inl e
      | inr X' => inr (sc', X')
      end
  end.

(** *** Metrics *)

(** Same number of samples on both sides, and discrete true labels. *)
Definition check_targets (y_true : list cell) (y_pred : list Z) : exn + list (Z * Z) :=
  if decide (length y_true = length y_pred) then
    match mapM label_of_cell y_true with
    | Some yt => inr (zip yt y_pred)
    | None => inl (ValueError "continuous is not supported")
    end
  else inl (ValueError "Found input variables with inconsistent numbers of samples").

Definition count {A : Type} (f : A -> bool) (l : list A) : nat :=
  length (List.filter f l).

Definition accuracy_score (y_true : list cell) (y_pred : list Z) : exn + float :=
  match check_targets y_true y_pred with
  | inl e => inl e
  | inr pairs =>
      inr (float_of_nat (count (fun q => bool_decide (q.1 = q.2)) pairs)
           / float_of_nat (length pairs))%float
  end.

(** [confusion_matrix(y_true, y_pred)] without [labels]: rows are the
    true classes, columns the predicted ones, both over the sorted
    labels that occur on either side. *)
Definition unique_labels (pairs : list (Z * Z)) : list Z :=
  sort_uniq ((fst <$> pairs) ++ (snd <$> pairs)).

Definition confusion_matrix (y_true : list cell) (y_pred : list Z) : exn + list (list nat) :=
  match check_targets y_true y_pred with
  | inl e => inl e
  | inr pairs =>
      let labels := unique_labels pairs in
      inr ((fun t => (fun p => count (fun q => bool_decide (q = (t, p))) pairs) <$> labels)
             <$> labels)
  end.

(** [plot_confusion_matrix(estimator, X, y_true,
    display_labels=display_labels)]: predicts on [X] and tabulates
    against [y_true]; drawing the matrix fails unless there is one
    display label per class found. *)
Definition plot_confusion_matrix (est : Fitted) (X : matrix) (y_true : list cell)
    (display_labels : list string) : exn + list (list nat) :=
  match confusion_matrix y_true (predict_one est <$> X) with
  | inl e => inl e
  | inr cm =>
      if decide (length cm = length display_labels) then inr cm
      else inl (ValueError "The number of tick locations does not match the number of labels")
  end.

(** [_prf_divide] with [zero_division="warn"]: a zero denominator gives
    0.0 (and a warning, see [report_warnings]). *)
Definition prf_divide (numerator denominator : nat) : float :=
  if decide (denominator = 0%nat) then 0%float
  else (float_of_nat numerator / float_of_nat denominator)%float.

Definition tp_sum (pairs : list (Z * Z)) (c : Z) : nat :=
  count (fun q => bool_decide (q.1 = c /\ q.2 = c)) pairs.
Definition pred_sum (pairs : list (Z * Z)) (c : Z) : nat :=
  count (fun q => bool_decide (q.2 = c)) pairs.
Definition true_sum (pairs : list (Z * Z)) (c : Z) : nat :=
  count (fun q => bool_decide (q.1 = c)) pairs.

Definition class_metrics (pairs : list (Z * Z)) (c : Z) : ClassMetrics :=
  let p := prf_divide (tp_sum pairs c) (pred_sum pairs c) in
  let r := prf_divide (tp_sum pairs c) (true_sum pairs c) in
  let denom := (p + r)%float in
  let denom := if PrimFloat.eqb denom 0 then 1%float else denom in
  {| precision := p;
     recall := r;
     f1_score := (2 * p * r / denom)%float;
     support := true_sum pairs c |}.

(** The metrics that were undefined for some label and set to 0.0. *)
Definition report_warnings (pairs : list (Z * Z)) (labels : list Z) : list string :=
  (if decide (Exists (fun c => pred_sum pairs c = 0%nat) labels)
   then ["Precision and F-score are ill-defined and being set to 0.0 in labels with no predicted samples"]
   else []) ++
  (if decide (Exists (fun c => true_sum pairs c = 0%nat) labels)
   then ["Recall and F-score are ill-defined and being set to 0.0 in labels with no true samples"]
   else []).

(** [classification_report(y_true, y_pred, labels=labels,
    output_dict=True)], the per-class entries keyed by the label's text. *)
Definition classification_report (y_true : list cell) (y_pred : list Z) (labels : list Z)
  : exn + (gmap string ClassMetrics * list string) :=
  match check_targets y_true y_pred with
  | inl e => inl e
  | inr pairs =>
      inr (list_to_map ((fun c => (pretty c, class_metrics pairs c)) <$> labels),
           report_warnings pairs labels)
  end.

End sklearn.

(** The sum of all entries of a count matrix. *)
Definition matrix_total (cm : list (list nat)) : nat :=
  sum_list (sum_list <$> cm).

(** ** The module's namespace

    Names bound at module scope, by import, assignment or [def].  A name
    that is read at module scope and is not bound there (nor a builtin)
    raises [NameError]; names assigned inside a function body are that
    call's locals and never enter this map. *)

Inductive pyval : Type :=
| PyModule (name : string)
| PyCallable (name : string)
| PyInt (z : Z)
| PyIntPair (p : Z * Z)
| PyStr (s : string)
| PyStrList (l : list string)
| PyBool (b : bool)
| PyArray (a : list Z)
| PyDict (g : ParamGrid)
| PyFrame (df : DataFrame)
| PySeries (y : list cell)
| PyLabels (y : list Z)
| PyMatrix (X : list (list float))
| PySearch (g : Fitted)
| PyReport (clf : gmap string ClassMetrics).

(** Lines 1-10. *)
Definition imports : list (string * pyval) := [
  ("st", PyModule "streamlit");
  ("np", PyModule "numpy");
  ("pd", PyModule "pandas");
  ("RandomForestClassifier", PyCallable "sklearn.ensemble.RandomForestClassifier");
  ("train_test_split", PyCallable "sklearn.model_selection.train_test_split");
  ("StandardScaler", PyCallable "sklearn.preprocessing.StandardScaler");
  ("cross_val_score", PyCallable "sklearn.model_selection.cross_val_score");
  ("GridSearchCV", PyCallable "sklearn.model_selection.GridSearchCV");
  ("accuracy_score", PyCallable "sklearn.metrics.accuracy_score");
  ("classification_report", PyCallable "sklearn.metrics.classification_report");
  ("plot_confusion_matrix", PyCallable "sklearn.metrics.plot_confusion_matrix");
  ("go", PyModule "plotly.graph_objects")
].

(** Lines 16-46 and 61: the bindings made before the button is read. *)
Definition module_bindings (s : Sidebar) (df : DataFrame) (grid : ParamGrid)
    : list (string * pyval) := [
  ("df", PyFrame df);
  ("split_size", PyInt (split_size s));
  ("parameter_n_estimators", PyIntPair (parameter_n_estimators s));
  ("parameter_n_estimators_step", PyInt (parameter_n_estimators_step s));
  ("parameter_max_features", PyStrList (parameter_max_features s));
  ("parameter_max_depth", PyIntPair (parameter_max_depth s));
  ("parameter_max_depth_step", PyInt (parameter_max_depth_step s));
  ("parameter_criterion", PyStr (parameter_criterion s));
  ("parameter_cross_validation", PyInt (parameter_cross_validation s));
  ("parameter_random_state", PyInt (parameter_random_state s));
  ("parameter_bootstrap", PyBool (parameter_bootstrap s));
  ("parameter_n_jobs", PyInt (parameter_n_jobs s));
  ("n_estimators_range", PyArray (n_estimators grid));
  ("max_depth_range", PyArray (max_depth grid));
  ("param_grid", PyDict grid);
  ("model", PyCallable "model")
].

Definition module_namespace (s : Sidebar) (df : DataFrame) (grid : ParamGrid)
    : gmap string pyval :=
  list_to_map (module_bindings s df grid ++ imports).

Definition load_name (ns : gmap string pyval) (name : string) : prog pyval :=
  match ns !! name with
  | Some v => Ret v
  | None => Raise (NameError name)
  end.

Definition as_series (v : pyval) : prog (list cell) :=
  match v with PySeries y => Ret y | _ => Raise (TypeError "not a series") end.
Definition as_labels (v : pyval) : prog (list Z) :=
  match v with PyLabels y => Ret y | _ => Raise (TypeError "not an array of labels") end.
Definition as_matrix (v : pyval) : prog (list (list float)) :=
  match v with PyMatrix X => Ret X | _ => Raise (TypeError "not a 2-D array") end.
Definition as_search (v : pyval) : prog Fitted :=
  match v with PySearch g => Ret g | _ => Raise (TypeError "not an estimator") end.

Definition getkey (clf : gmap string ClassMetrics) (key : string) : prog ClassMetrics :=
  match clf !! key with
  | Some m => Ret m
  | None => Raise (KeyError key)
  end.

(** ** The script *)

(** Lines 69-71: one scaler object, fitted by [fit_transform] on the
    training features and then applied to the test features. *)
Definition standardization (X_train X_test : list (list float))
  : exn + (sklearn.StandardScaler * list (list float) * list (list float)) :=
  let sc := sklearn.new_StandardScaler in
  match sklearn.fit_transform sc X_train with
  | inl e => inl e
  | inr (sc, X_train) =>
      match sklearn.transform sc X_test with
      | inl e => inl e
      | inr X_test => inr (sc, X_train, X_test)
      end
  end.

(** Lines 62-71: the target and the features are taken from the frame,
    split, and the features standardised. *)
Definition model_data (s : Sidebar) (df : DataFrame)
  : prog (list (list float) * list (list float) * list cell * list cell) :=
  let* Y := lift (pd.getitem df "target") in
  let* X := lift (pd.drop df "target") in
  (* Data splitting *)
  let* (X_train, X_test, Y_train, Y_test) :=
    sklearn.train_test_split (rows X) Y (split_size s) in
  (* Standardization *)
  let* (sc, X_train, X_test) :=
    lift (standardization (pd.to_numpy X_train) (pd.to_numpy X_test)) in
  Ret (X_train, X_test, Y_train, Y_test).

(** Lines 61-116.  The globals the body reads are the sidebar values and
    [param_grid]; everything it assigns is local, and it returns [None]. *)
Definition model (s : Sidebar) (param_grid : ParamGrid) (df : DataFrame) : prog unit :=
  let* (X_train, X_test, Y_train, Y_test) := model_data s df in
  (* Build Random Forest model *)
  let rf := {| random_state := parameter_random_state s;
               bootstrap := parameter_bootstrap s;
               n_jobs := parameter_n_jobs s |} in
  let* grid := new_GridSearchCV {| estimator := rf;
                                   gs_param_grid := param_grid;
                                   cv := parameter_cross_validation s |} in
  let* fitted := GridSearchCV_fit grid X_train Y_train in
  emit (st_subheader "Model Performance") ;;;
  let Y_pred_test := predict_one fitted <$> X_test in
  (* Accuracy score *)
  emit (st_write "Accuracy score of the given model") ;;;
  let* acc := lift (sklearn.accuracy_score Y_test Y_pred_test) in
  emit (st_info acc) ;;;
  (* Best parameters *)
  emit (st_write_best (best_params_ fitted) (best_score_ fitted)) ;;;
  (* Model parameters *)
  emit (st_subheader "Model Parameters") ;;;
  emit (st_write_params grid) ;;;
  (* 3D Visualizer *)
  let grid_results :=
    pd.concat (cv_results_params fitted) (cv_results_mean_test_score fitted) in
  let* (x, y, z) := lift (pd.surface grid_results) in
  emit (st_plotly_chart x y z).

Definition dummy_columns : list string :=
  ["sex"; "cp"; "fbs"; "restecg"; "exang"; "slope"; "ca"; "thal"].

(** Lines 120-142, the body of [if st.button('Build Model')], run in the
    module's namespace [ns]. *)
Definition build_model (s : Sidebar) (param_grid : ParamGrid) (df : DataFrame)
    (ns : gmap string pyval) : prog (gmap string pyval) :=
  (* Preprocessing *)
  let* dataset := pd_get_dummies df dummy_columns in
  let ns := <["dataset" := PyFrame dataset]> ns in
  model s param_grid dataset ;;;
  (* Classification Report *)
  emit (st_subheader "Classification Report") ;;;
  let* Y_test := load_name ns "Y_test" in
  let* Y_pred_test := load_name ns "Y_pred_test" in
  let* y_true := as_series Y_test in
  let* y_pred := as_labels Y_pred_test in
  let* (clf, _) := lift (sklearn.classification_report y_true y_pred [0; 1]) in
  let ns := <["clf" := PyReport clf]> ns in
  let* c0 := getkey clf "0" in
  emit (st_write_class "For Class 0 (no disease)" c0) ;;;
  let* c1 := getkey clf "1" in
  emit (st_write_class "For Class 1 (has disease)" c1) ;;;
  (* Confusion Matrix *)
  emit (st_subheader "Confusion Matrix") ;;;
  let* grid := load_name ns "grid" in
  let* X_test := load_name ns "X_test" in
  let* Y_test := load_name ns "Y_test" in
  let* est := as_search grid in
  let* X := as_matrix X_test in
  let* y_true := as_series Y_test in
  let* cm := lift (sklearn.plot_confusion_matrix est X y_true
                     ["No disease"; "Has disease"]) in
  emit (st_pyplot cm) ;;;
  emit (st_caption "Confusion matrix of the best model on the test data.") ;;;
  Ret ns.

(** The Markdown text of lines 49-52, a string literal that spans four
    lines. *)
Definition newline : string := String (Ascii.ascii_of_nat 10) "".

Definition page_title : string :=
  newline
  ++ "# Machine Learning Hyperparameter Optimization App for Design & Analysis" ++ newline
  ++ "### (Demonstrating using Heart Disease Calssification)" ++ newline.

(** The whole script for one rerun of the page: [df] is what [read_csv]
    returned, [s] the widget values, [clicked] whether the button was
    pressed.  A zero step makes [np.arange] raise at line 44 or 45. *)
Definition script (s : Sidebar) (df : DataFrame) (clicked : bool) : prog unit :=
  let* grid := match param_grid s with
               | Some g => Ret g
               | None => Raise ZeroDivisionError
               end in
  emit (st_write page_title) ;;;
  emit (st_subheader "Made by Mohammed Husamuddin") ;;;
  emit (st_subheader "Dataset") ;;;
  emit (st_markdown "The **Heart Disease** dataset is used as the example.") ;;;
  emit (st_write_frame (pd.head df 5)) ;;;
  let ns := module_namespace s df grid in
  if clicked then
    build_model s grid df ns ;;; Ret tt
  else Ret tt.

(** What every rerun shows before the button is read (lines 49-56). *)
Definition page_header (df : DataFrame) : list output := [
  st_write page_title;
  st_subheader "Made by Mohammed Husamuddin";
  st_subheader "Dataset";
  st_markdown "The **Heart Disease** dataset is used as the example.";
  st_write_frame (pd.head df 5)
].

(** ** Observing a run up to the library's search

    [before_search] runs a program until it ends or first turns to the
    grid search (its constructor or its [fit]); [before_fit] lets the
    constructor answer and stops at the first [fit]. *)

Inductive ending (A : Type) : Type :=
| Returned (a : A)
| Raised (e : exn)
| AtSearch (g : GridSearchCV)
| AtFit (g : GridSearchCV) (X : list (list float)) (Y : list cell).

Arguments Returned {A} a.
Arguments Raised {A} e.
Arguments AtSearch {A} g.
Arguments AtFit {A} g X Y.

Fixpoint before_fit {A : Type} (w : World) (p : prog A) : list output * ending A :=
  match p with
  | Ret a => ([], Returned a)
  | Raise e => ([], Raised e)
  | Emit o k => let '(out, r) := before_fit w k in (o :: out, r)
  | Permutation n k => before_fit w (k (rng_permutation w n))
  | GetDummies df cols k =>
      match get_dummies w df cols with
      | inl e => ([], Raised e)
      | inr d => before_fit w (k d)
      end
  | NewGridSearchCV g k =>
      match gs_init w g with
      | Some e => ([], Raised e)
      | None => before_fit w k
      end
  | Fit g X Y _ => ([], AtFit g X Y)
  end.

Fixpoint before_search {A : Type} (w : World) (p : prog A) : list output * ending A :=
  match p with
  | Ret a => ([], Returned a)
  | Raise e => ([], Raised e)
  | Emit o k => let '(out, r) := before_search w k in (o :: out, r)
  | Permutation n k => before_search w (k (rng_permutation w n))
  | GetDummies df cols k =>
      match get_dummies w df cols with
      | inl e => ([], Raised e)
      | inr d => before_search w (k d)
      end
  | NewGridSearchCV g _ => ([], AtSearch g)
  | Fit g X Y _ => ([], AtFit g X Y)
  end.

(** Every output a program can show satisfies [P], whatever the library
    answers. *)
Fixpoint shows_only {A : Type} (P : output -> Prop) (p : prog A) : Prop :=
  match p with
  | Ret _ | Raise _ => True
  | Emit o k => P o /\ shows_only P k
  | Permutation _ k => forall perm, shows_only P (k perm)
  | GetDummies _ _ k => forall d, shows_only P (k d)
  | NewGridSearchCV _ k => shows_only P k
  | Fit _ _ _ k => forall r, shows_only P (k r)
  end.

(** No path through the program ends in a normal return. *)
Fixpoint never_returns {A : Type} (p : prog A) : Prop :=
  match p with
  | Ret _ => False
  | Raise _ => True
  | Emit _ k => never_returns k
  | Permutation _ k => forall perm, never_returns (k perm)
  | GetDummies _ _ k => forall d, never_returns (k d)
  | NewGridSearchCV _ k => never_returns k
  | Fit _ _ _ k => forall r, never_returns (k r)
  end.

(** The program never turns to the grid search. *)
Fixpoint search_free {A : Type} (p : prog A) : Prop :=
  match p with
  | Ret _ | Raise _ => True
  | Emit _ k => search_free k
  | Permutation _ k => forall perm, search_free (k perm)
  | GetDummies _ _ k => forall d, search_free (k d)
  | NewGridSearchCV _ _ | Fit _ _ _ _ => False
  end.

(** How a completed run ends, as an [ending]. *)
Definition ended {A : Type} (r : exn + A) : ending A :=
  match r with
  | inl e => Raised e
  | inr a => Returned a
  end.

(** The forest and the search that [model] constructs (lines 74-75). *)
Definition model_search (s : Sidebar) (param_grid : ParamGrid) : GridSearchCV :=
  {| estimator := {| random_state := parameter_random_state s;
                     bootstrap := parameter_bootstrap s;
                     n_jobs := parameter_n_jobs s |};
     gs_param_grid := param_grid;
     cv := parameter_cross_validation s |}.

Definition is_class_report (o : output) : bool :=
  match o with
  | st_write_class _ _ => true
  | _ => false
  end.

(** What lines 138-142 would show: the heading, the plot, the caption. *)
Definition is_confusion_matrix_output (o : output) : bool :=
  match o with
  | st_subheader text => String.eqb text "Confusion Matrix"
  | st_pyplot _ => true
  | st_caption _ => true
  | _ => false
  end.

(** ** A sample library

    Stand-ins for the three library calls that the script leaves to the
    [World], used to run the script on sample frames: the one-hot
    encoding of integer-coded columns, the constructor's check of the
    grid, and a search that puts scikit-learn's most-frequent-class
    baseline in the place of the forest. *)

Fixpoint collect {A B : Type} (f : A -> exn + B) (l : list A) : exn + list B :=
  match l with
  | [] => inr []
  | x :: l =>
      match f x with
      | inl e => inl e
      | inr y =>
          match collect f l with
          | inl e => inl e
          | inr ys => inr (y :: ys)
          end
      end
  end.

(** The indicator columns of one integer-coded column: one column per
    value that occurs, ascending, named [name_value]. *)
Definition dummies_of (df : DataFrame) (name : string)
  : exn + (list string * list (list cell)) :=
  match pd.getitem df name with
  | inl e => inl e
  | inr col =>
      match mapM (fun c => match c with Int64 z => Some z | Float64 _ => None end) col with
      | None => inl (LibraryError "only integer-coded categories are encoded")
      | Some values =>
          let levels := sort_uniq values in
          inr ((fun v => name ++ "_" ++ pretty v) <$> levels,
               (fun z => (fun v => Int64 (if decide (z = v) then 1 else 0)) <$> levels)
                 <$> values)
      end
  end.

Fixpoint drop_all (df : DataFrame) (names : list string) : exn + DataFrame :=
  match names with
  | [] => inr df
  | name :: names =>
      match pd.drop df name with
      | inl e => inl e
      | inr df' => drop_all df' names
      end
  end.

(** [pd.get_dummies(df, columns=cols)]: [KeyError] when a listed column
    is missing; otherwise the other columns in their order, followed by
    the indicator columns of each listed column, in the order listed. *)
Definition one_hot (df : DataFrame) (cols : list string) : exn + DataFrame :=
  match collect (dummies_of df) cols with
  | inl e => inl e
  | inr blocks =>
      match drop_all df cols with
      | inl e => inl e
      | inr rest =>
          inr {| columns := (columns rest ++ concat (fst <$> blocks))%list;
                 rows := imap (fun i r =>
                                 (r ++ concat ((fun b => default [] (snd b !! i)) <$> blocks))%list)
                              (rows rest) |}
      end
  end.

(** The constructor's check of the grid: every dimension needs at least
    one candidate. *)
Definition check_param_grid (g : GridSearchCV) : option exn :=
  if decide (max_features (gs_param_grid g) = []) then
    Some (ValueError "Parameter values for parameter (max_features) need to be a non-empty sequence.")
  else if decide (n_estimators (gs_param_grid g) = []) then
    Some (ValueError "Parameter values for parameter (n_estimators) need to be a non-empty sequence.")
  else if decide (max_depth (gs_param_grid g) = []) then
    Some (ValueError "Parameter values for parameter (max_depth) need to be a non-empty sequence.")
  else None.

(** The grid points in the order of [ParameterGrid]: parameter names
    sorted, the last one varying fastest. *)
Definition grid_points (g : ParamGrid) : list Params :=
  d ← max_depth g;
  f ← max_features g;
  n ← n_estimators g;
  [{| p_max_depth := d; p_max_features := f; p_n_estimators := n |}].

Definition class_count (labels : list Z) (c : Z) : nat :=
  sklearn.count (fun y => bool_decide (y = c)) labels.

(** The most frequent label, the smallest one on a tie. *)
Definition most_frequent (labels : list Z) : Z :=
  foldr (fun c best =>
           if decide (class_count labels best <= class_count labels c)%nat then c else best)
        0 (sort_uniq labels).

(** A search over the grid with the most-frequent-class baseline as the
    estimator.  Like the stratified folds of the real search it refuses
    more folds than samples, and more folds than members of every class;
    every grid point gets the share of the most frequent training label
    as its score, the first grid point is the best one, and predictions
    are that label.  The result depends on the training labels, and on
    nothing else that the forest's seed could fix. *)
Definition most_frequent_search (g : GridSearchCV) (X : matrix) (Y : list cell)
  : exn + Fitted :=
  if decide (length X = length Y) then
    match mapM label_of_cell Y with
    | None => inl (ValueError "Unknown label type: continuous")
    | Some labels =>
        if decide (Z.of_nat (length labels) < cv g) then
          inl (ValueError "Cannot have number of splits greater than the number of samples")
        else if decide (Forall (fun c => Z.of_nat (class_count labels c) < cv g)
                               (sort_uniq labels)) then
          inl (ValueError "n_splits cannot be greater than the number of members in each class")
        else
          match grid_points (gs_param_grid g) with
          | [] => inl (ValueError "No fits were performed")
          | p :: ps =>
              let c := most_frequent labels in
              let score := (float_of_nat (class_count labels c)
                            / float_of_nat (length labels))%float in
              inr {| cv_results_params := p :: ps;
                     cv_results_mean_test_score := replicate (S (length ps)) score;
                     best_params_ := p;
                     best_score_ := score;
                     predict_one := fun _ => c |}
          end
    end
  else inl (ValueError "Found input variables with inconsistent numbers of samples").

(** A library with the given random generator and the given search. *)
Definition library_world (permutation : nat -> list nat)
    (fit : GridSearchCV -> matrix -> list cell -> exn + Fitted) : World :=
  {| rng_permutation := permutation;
     get_dummies := one_hot;
     gs_init := check_param_grid;
     gs_fit := fit |}.

(** ** Sample inputs *)

(** A frame of [n] rows in the layout of the heart-disease file: age,
    the eight integer-coded columns that the script encodes, and a binary
    target.  The first fifty rows alternate between the two classes;
    after that every fourth row is of class 1. *)
Definition sample_row (i : Z) : list cell :=
  [Int64 (29 + i mod 40); Int64 (i mod 2); Int64 (i mod 4); Int64 (i mod 7 / 6);
   Int64 (i mod 3); Int64 (i mod 5 / 3); Int64 (i mod 3); Int64 (i mod 5);
   Int64 (1 + i mod 3);
   Int64 (if decide (i < 50) then i mod 2 else if decide (i mod 4 = 0) then 1 else 0)].

Definition sample_frame (n : nat) : DataFrame :=
  {| columns := ["age"; "sex"; "cp"; "fbs"; "restecg"; "exang"; "slope"; "ca"; "thal";
                 "target"];
     rows := (fun i : nat => sample_row (Z.of_nat i)) <$> seq 0 n |}.

(** The same rows without the target column. *)
Definition unlabelled_frame (n : nat) : DataFrame :=
  {| columns := ["age"; "sex"; "cp"; "fbs"; "restecg"; "exang"; "slope"; "ca"; "thal"];
     rows := (fun i : nat => take 9 (sample_row (Z.of_nat i))) <$> seq 0 n |}.

(** The grid of the default sidebar. *)
Definition default_grid : ParamGrid :=
  {| max_features := ["auto"];
     n_estimators := [10; 20; 30; 40; 50];
     max_depth := [5; 6; 7; 8] |}.

(** A search result over a 2 x 2 grid, predicting class 0 throughout. *)
Definition sample_fitted : Fitted :=
  {| cv_results_params :=
       [ {| p_max_depth := 5; p_max_features := "auto"; p_n_estimators := 10 |};
         {| p_max_depth := 5; p_max_features := "auto"; p_n_estimators := 60 |};
         {| p_max_depth := 7; p_max_features := "auto"; p_n_estimators := 10 |};
         {| p_max_depth := 7; p_max_features := "auto"; p_n_estimators := 60 |} ];
     cv_results_mean_test_score := [0.5; 0.75; 0.25; 0.5]%float;
     best_params_ := {| p_max_depth := 5; p_max_features := "auto"; p_n_estimators := 60 |};
     best_score_ := 0.75%float;
     predict_one := fun _ => 0 |}.

(** The sample library with a generator that returns the identity
    permutation, and with one that returns the reversed one. *)
Definition identity_world : World :=
  library_world (fun n => seq 0 n) most_frequent_search.

Definition reversed_world : World :=
  library_world (fun n => rev (seq 0 n)) most_frequent_search.

(** The frame that the sample library's encoding makes of [df]. *)
Definition encoded (df : DataFrame) : DataFrame :=
  match one_hot df dummy_columns with
  | inr dataset => dataset
  | inl _ => df
  end.

Definition with_split (s : Sidebar) (n : Z) : Sidebar :=
  {| split_size := n;
     parameter_n_estimators := parameter_n_estimators s;
     parameter_n_estimators_step := parameter_n_estimators_step s;
     parameter_max_features := parameter_max_features s;
     parameter_max_depth := parameter_max_depth s;
     parameter_max_depth_step := parameter_max_depth_step s;
     parameter_criterion := parameter_criterion s;
     parameter_cross_validation := parameter_cross_validation s;
     parameter_random_state := parameter_random_state s;
     parameter_bootstrap := parameter_bootstrap s;
     parameter_n_jobs := parameter_n_jobs s |}.

Definition with_max_features (s : Sidebar) (l : list string) : Sidebar :=
  {| split_size := split_size s;
     parameter_n_estimators := parameter_n_estimators s;
     parameter_n_estimators_step := parameter_n_estimators_step s;
     parameter_max_features := l;
     parameter_max_depth := parameter_max_depth s;
     parameter_max_depth_step := parameter_max_depth_step s;
     parameter_criterion := parameter_criterion s;
     parameter_cross_validation := parameter_cross_validation s;
     parameter_random_state := parameter_random_state s;
     parameter_bootstrap := parameter_bootstrap s;
     parameter_n_jobs := parameter_n_jobs s |}.

Definition with_cross_validation (s : Sidebar) (k : Z) : Sidebar :=
  {| split_size := split_size s;
     parameter_n_estimators := parameter_n_estimators s;
     parameter_n_estimators_step := parameter_n_estimators_step s;
     parameter_max_features := parameter_max_features s;
     parameter_max_depth := parameter_max_depth s;
     parameter_max_depth_step := parameter_max_depth_step s;
     parameter_criterion := parameter_criterion s;
     parameter_cross_validation := k;
     parameter_random_state := parameter_random_state s;
     parameter_bootstrap := parameter_bootstrap s;
     parameter_n_jobs := parameter_n_jobs s |}.

Definition with_max_depth (s : Sidebar) (range : Z * Z) (step : Z) : Sidebar :=
  {| split_size := split_size s;
     parameter_n_estimators := parameter_n_estimators s;
     parameter_n_estimators_step := parameter_n_estimators_step s;
     parameter_max_features := parameter_max_features s;
     parameter_max_depth := range;
     parameter_max_depth_step := step;
     parameter_criterion := parameter_criterion s;
     parameter_cross_validation := parameter_cross_validation s;
     parameter_random_state := parameter_random_state s;
     parameter_bootstrap := parameter_bootstrap s;
     parameter_n_jobs := parameter_n_jobs s |}.

(** ** Well-formed frames and further observations *)

(** Every row has one cell per column label. *)
Definition rectangular (df : DataFrame) : Prop :=
  Forall (fun r : list cell => length r = length (columns df)) (rows df).

(** The cells of an integer column. *)
Definition is_int (c : cell) : Prop :=
  match c with
  | Int64 _ => True
  | Float64 _ => False
  end.

Definition with_criterion (s : Sidebar) (c : string) : Sidebar :=
  {| split_size := split_size s;
     parameter_n_estimators := parameter_n_estimators s;
     parameter_n_estimators_step := parameter_n_estimators_step s;
     parameter_max_features := parameter_max_features s;
     parameter_max_depth := parameter_max_depth s;
     parameter_max_depth_step := parameter_max_depth_step s;
     parameter_criterion := c;
     parameter_cross_validation := parameter_cross_validation s;
     parameter_random_state := parameter_random_state s;
     parameter_bootstrap := parameter_bootstrap s;
     parameter_n_jobs := parameter_n_jobs s |}.

(** The four arrays that lines 62-71 leave behind in a run, if they
    complete. *)
Definition model_arrays (w : World) (s : Sidebar) (dataset : DataFrame)
  : list (list float) * list (list float) * list cell * list cell :=
  match snd (run w (model_data s dataset)) with
  | inr arrays => arrays
  | inl _ => ([], [], [], [])
  end.

Definition is_class_1 (c : cell) : bool :=
  match label_of_cell c with
  | Some 1 => true
  | _ => false
  end.

(** * Properties *)

(** ** The grid builder *)

Section ArangeFacts.

Variables start stop step : Z.
Hypothesis step_pos : 0 < step.

Lemma ceil_div_spec (a : Z) :
  (np.ceil_div a step - 1) * step < a <= np.ceil_div a step * step.
Proof.
  unfold np.ceil_div.
  pose proof (Z.div_mod (- a) step ltac:(lia)) as Hdm.
  pose proof (Z.mod_pos_bound (- a) step step_pos) as Hb.
  nia.
Qed.

Lemma arange_defined :
  np.arange start stop step =
  Some ((fun k : nat => start + Z.of_nat k * step)
          <$> seq 0 (Z.to_nat (np.ceil_div (stop - start) step))).
Proof. unfold np.arange. destruct (decide (step = 0)); [lia | reflexivity]. Qed.

(** Every element is [start] plus a multiple of [step], below [stop]. *)
Lemma arange_lookup (l : list Z) (i : nat) (x : Z) :
  np.arange start stop step = Some l ->
  l !! i = Some x ->
  x = start + Z.of_nat i * step /\ x < stop.
Proof.
  rewrite arange_defined. intros [= <-] Hi.
  rewrite list_lookup_fmap in Hi.
  destruct (seq 0 _ !! i) as [k|] eqn:Hk; simplify_eq/=.
  apply lookup_seq in Hk as [-> Hlt]. simpl. split; [reflexivity|].
  pose proof (ceil_div_spec (stop - start)). nia.
Qed.

Lemma arange_head (l : list Z) :
  start < stop ->
  np.arange start stop step = Some l ->
  head l = Some start.
Proof.
  intros Hlt. rewrite arange_defined. intros [= <-].
  pose proof (ceil_div_spec (stop - start)).
  assert (0 < np.ceil_div (stop - start) step) by nia.
  destruct (Z.to_nat (np.ceil_div (stop - start) step)) eqn:E; [lia|].
  simpl. f_equal. lia.
Qed.

Lemma arange_spacing (l : list Z) (i : nat) (a b : Z) :
  np.arange start stop step = Some l ->
  l !! i = Some a -> l !! (S i) = Some b ->
  b - a = step.
Proof.
  intros Hl Ha Hb.
  destruct (arange_lookup l _ _ Hl Ha) as [-> _].
  destruct (arange_lookup l _ _ Hl Hb) as [-> _]. lia.
Qed.

Lemma arange_last (l : list Z) :
  start < stop ->
  np.arange start stop step = Some l ->
  exists x, last l = Some x /\ stop - step <= x < stop.
Proof.
  intros Hlt. rewrite arange_defined. intros [= <-].
  pose proof (ceil_div_spec (stop - start)) as Hc.
  assert (0 < np.ceil_div (stop - start) step) as Hpos by nia.
  destruct (Z.to_nat (np.ceil_div (stop - start) step)) as [|n] eqn:E; [lia|].
  exists (start + Z.of_nat n * step). split.
  - rewrite seq_S, fmap_app. cbn [fmap list_fmap]. rewrite last_snoc. reflexivity.
  - nia.
Qed.

End ArangeFacts.

(** What the builder does guarantee for a range [(lo, hi)] with
    [lo <= hi] and a positive step: the first candidate is [lo],
    neighbours are [step] apart, and the last candidate [x] satisfies
    [hi <= x < hi + step]; it is [hi] itself exactly when the step divides
    [hi - lo]. *)
Lemma range_with_upper_bound (lo hi step : Z) (l : list Z) :
  lo <= hi -> 0 < step ->
  np.arange lo (hi + step) step = Some l ->
  head l = Some lo /\
  (forall i a b, l !! i = Some a -> l !! S i = Some b -> b - a = step) /\
  exists x, last l = Some x /\ hi <= x < hi + step /\ (x = hi <-> (step | hi - lo)).
Proof.
  intros Hle Hstep Hl. split; [|split].
  - eapply arange_head; eauto; lia.
  - intros i a b. eapply arange_spacing; eauto.
  - destruct (arange_last lo (hi + step) step Hstep l ltac:(lia) Hl) as (x & Hx & Hb).
    exists x. split; [done|]. split; [lia|].
    destruct (last_Some l x) as [[l' ->] _]; [done|].
    assert ((l' ++ [x])%list !! length l' = Some x) as Hi
      by (rewrite lookup_app_r, Nat.sub_diag; [done|lia]).
    destruct (arange_lookup lo (hi + step) step Hstep _ _ _ Hl Hi) as [Hxi _].
    split.
    + intros Heq. exists (Z.of_nat (length l')). unfold Z.divide. lia.
    + intros [k Hk].
      assert (0 <= (Z.of_nat (length l') - k) * step < step) as Hd by lia.
      assert (Z.of_nat (length l') - k = 0) by nia. lia.
Qed.

(** C4 (evaluation at the failing input).  With the depth slider at
    (5, 8) and the depth step at 2, both deliverable by the widgets, the
    expanded depth range is [5; 7; 9]: its maximum 9 exceeds the chosen
    maximum 8. *)
Theorem max_depth_range_exceeds_max :
  sidebar_valid (with_max_depth default_sidebar (5, 8) 2) /\
  max_depth_range (with_max_depth default_sidebar (5, 8) 2) = Some [5; 7; 9] /\
  (exists g, param_grid (with_max_depth default_sidebar (5, 8) 2) = Some g /\
             9 ∈ max_depth g) /\
  snd (parameter_max_depth (with_max_depth default_sidebar (5, 8) 2)) < 9.
Proof.
  split; [|split; [|split]].
  - unfold sidebar_valid, on_slider; simpl. split_and!; try lia.
    + by exists 6.
    + intros f Hf. apply list_elem_of_singleton in Hf as ->. apply list_elem_of_here.
    + apply list_elem_of_here.
    + apply list_elem_of_here.
  - reflexivity.
  - eexists. split; [reflexivity|]. set_solver.
  - simpl. lia.
Qed.

(** ** Running programs *)

Lemma run_bind {A B : Type} (w : World) (p : prog A) (f : A -> prog B) :
  run w (bind p f) =
  match run w p with
  | (out, inl e) => (out, inl e)
  | (out, inr a) => let '(out', r) := run w (f a) in ((out ++ out')%list, r)
  end.
Proof.
  induction p as [a|e|o k IH|n k IH|df cols k IH|g k IH|g X Y k IH]; simpl.
  - destruct (run w (f a)); reflexivity.
  - reflexivity.
  - rewrite IH. destruct (run w k) as [out [e|a]]; [reflexivity|].
    destruct (run w (f a)); reflexivity.
  - apply IH.
  - destruct (get_dummies w df cols); [reflexivity | apply IH].
  - destruct (gs_init w g); [reflexivity | apply IH].
  - destruct (gs_fit w g X Y); [reflexivity | apply IH].
Qed.

Lemma run_bind_inr {A B : Type} (w : World) (p : prog A) (f : A -> prog B)
    (out : list output) (b : B) :
  run w (bind p f) = (out, inr b) ->
  exists out1 a out2,
    run w p = (out1, inr a) /\ run w (f a) = (out2, inr b) /\ out = (out1 ++ out2)%list.
Proof.
  rewrite run_bind. destruct (run w p) as [out1 [e|a]]; [discriminate|].
  destruct (run w (f a)) as [out2 r] eqn:Hf. intros [= <- ->].
  by exists out1, a, out2.
Qed.

Lemma run_lift_inr {A : Type} (w : World) (r : exn + A) (out : list output) (a : A) :
  run w (lift r) = (out, inr a) -> r = inr a /\ out = [].
Proof.
  destruct r as [e|a']; simpl; [discriminate|]. intros [= <- <-]. done.
Qed.

(** ** The train/test split *)

Lemma safe_indexing_length {A : Type} (a : list A) (indices : list nat) (r : list A) :
  sklearn.safe_indexing a indices = inr r -> length r = length indices.
Proof.
  unfold sklearn.safe_indexing.
  destruct (mapM _ indices) as [k|] eqn:E; [|discriminate].
  intros [= <-]. symmetry. eapply length_mapM, E.
Qed.

Lemma safe_indexing_in_range {A : Type} (a : list A) (indices : list nat) :
  Forall (fun i => (i < length a)%nat) indices ->
  exists r, sklearn.safe_indexing a indices = inr r.
Proof.
  intros Hall. unfold sklearn.safe_indexing.
  destruct (mapM_is_Some_2 (fun i : nat => a !! i) indices) as [r ->]; [|by eexists].
  eapply Forall_impl; [exact Hall|]. intros i Hi. by apply lookup_lt_is_Some_2.
Qed.

Lemma validate_shuffle_split_int (n_samples : nat) (test_size : Z) :
  0 < test_size < Z.of_nat n_samples ->
  sklearn.validate_shuffle_split n_samples test_size =
  inr ((n_samples - Z.to_nat test_size)%nat, Z.to_nat test_size).
Proof.
  intros H. unfold sklearn.validate_shuffle_split.
  destruct (decide _) as [[?|?]|_]; [lia|lia|].
  destruct (decide _); [lia|reflexivity].
Qed.

(** With an integer [test_size] below the number of rows, and a
    generator that returns a permutation of the row numbers, the split
    succeeds: the test side has [test_size] rows and the training side
    the rest. *)
Lemma train_test_split_sizes {A B : Type} (w : World) (X : list A) (Y : list B) (test_size : Z) :
  length X = length Y ->
  0 < test_size < Z.of_nat (length X) ->
  rng_permutation w (length X) ≡ₚ seq 0 (length X) ->
  exists X_train X_test Y_train Y_test,
    run w (sklearn.train_test_split X Y test_size) = ([], inr (X_train, X_test, Y_train, Y_test)) /\
    length X_test = Z.to_nat test_size /\
    length Y_test = Z.to_nat test_size /\
    length X_train = (length X - Z.to_nat test_size)%nat /\
    length Y_train = (length X - Z.to_nat test_size)%nat.
Proof.
  intros Hlen Hts Hperm.
  set (perm := rng_permutation w (length X)) in *.
  assert (length perm = length X) as Hpl
    by (rewrite (Permutation_length Hperm); apply length_seq).
  assert (Forall (fun i => (i < length X)%nat) perm) as Hrange.
  { apply Forall_forall. intros i Hi. rewrite Hperm in Hi.
    apply elem_of_seq in Hi. lia. }
  set (n_test := Z.to_nat test_size).
  set (n_train := (length X - n_test)%nat).
  assert (Forall (fun i => (i < length X)%nat) (take n_test perm)) as Hte
    by (by apply Forall_take).
  assert (Forall (fun i => (i < length X)%nat) (take n_train (skipn n_test perm))) as Htr
    by (by apply Forall_take, Forall_drop).
  destruct (safe_indexing_in_range X _ Htr) as [X_train HXtr].
  destruct (safe_indexing_in_range X _ Hte) as [X_test HXte].
  rewrite Hlen in Htr, Hte.
  destruct (safe_indexing_in_range Y _ Htr) as [Y_train HYtr].
  destruct (safe_indexing_in_range Y _ Hte) as [Y_test HYte].
  exists X_train, X_test, Y_train, Y_test.
  split.
  - unfold sklearn.train_test_split.
    destruct (decide (length X = length Y)); [|done].
    rewrite validate_shuffle_split_int by done.
    simpl. fold perm n_test n_train.
    rewrite HXtr. simpl. rewrite HXte. simpl. rewrite HYtr. simpl. rewrite HYte.
    reflexivity.
  - apply safe_indexing_length in HXtr, HXte, HYtr, HYte.
    rewrite HXtr, HXte, HYtr, HYte.
    rewrite !length_take, length_drop. subst n_test n_train. lia.
Qed.

(** The split shows nothing on the page. *)
Lemma train_test_split_silent {A B : Type} (w : World) (X : list A) (Y : list B)
    (test_size : Z) (out : list output) (r : exn + (list A * list A * list B * list B)) :
  run w (sklearn.train_test_split X Y test_size) = (out, r) -> out = [].
Proof.
  unfold sklearn.train_test_split.
  destruct (decide _) as [Hlen|]; [|by intros [= <- _]].
  destruct (sklearn.validate_shuffle_split _ _) as [e|[n_train n_test]];
    [by intros [= <- _]|].
  cbn [lift bind np_random_permutation run].
  repeat match goal with
         | |- context [sklearn.safe_indexing ?a ?i] =>
             destruct (sklearn.safe_indexing a i); cbn [lift bind run]
         end; by intros [= <- _].
Qed.

(** C1 (evaluation at the failing input).  With the split slider at its
    initial value 80 ("% for Training Set") and 300 rows, [model]'s call
    [train_test_split(X, Y, test_size=split_size)] puts 80 rows on the
    test side and 220 on the training side, whatever permutation the
    generator draws; not 60 and 240. *)
Theorem split_80_of_300_rows {A B : Type} (w : World) (X : list A) (Y : list B) :
  length X = 300%nat ->
  length Y = 300%nat ->
  rng_permutation w 300 ≡ₚ seq 0 300 ->
  exists X_train X_test Y_train Y_test,
    run w (sklearn.train_test_split X Y (split_size default_sidebar))
      = ([], inr (X_train, X_test, Y_train, Y_test)) /\
    length X_train = 220%nat /\ length X_test = 80%nat /\
    length Y_train = 220%nat /\ length Y_test = 80%nat.
Proof.
  intros HX HY Hperm.
  destruct (train_test_split_sizes w X Y (split_size default_sidebar))
    as (X_train & X_test & Y_train & Y_test & Hrun & H1 & H2 & H3 & H4).
  - congruence.
  - rewrite HX. simpl. lia.
  - by rewrite HX.
  - exists X_train, X_test, Y_train, Y_test.
    rewrite H1, H2, H3, H4, HX. simpl. repeat split; try done; lia.
Qed.

Lemma split_80_of_300_rows_witness :
  exists X_train X_test Y_train Y_test,
    run identity_world
        (sklearn.train_test_split (rows (sample_frame 300)) (seq 0 300)
                                  (split_size default_sidebar))
      = ([], inr (X_train, X_test, Y_train, Y_test)) /\
    length X_train = 220%nat /\ length X_test = 80%nat /\
    length Y_train = 220%nat /\ length Y_test = 80%nat.
Proof.
  apply (split_80_of_300_rows identity_world (rows (sample_frame 300)) (seq 0 300)).
  - vm_compute. reflexivity.
  - vm_compute. reflexivity.
  - reflexivity.
Defined.

(** ** The report step at module scope *)

Lemma run_never_returns {A : Type} (w : World) (p : prog A) :
  never_returns p -> exists e, snd (run w p) = inl e.
Proof.
  induction p as [a|e|o k IH|n k IH|df cols k IH|g k IH|g X Y k IH]; simpl.
  - intros [].
  - by eexists.
  - intros Hk. destruct (IH Hk) as [e He]. destruct (run w k). by exists e.
  - intros Hk. apply IH, Hk.
  - intros Hk. destruct (get_dummies w df cols); [by eexists | apply IH, Hk].
  - intros Hk. destruct (gs_init w g); [by eexists | apply IH, Hk].
  - intros Hk. destruct (gs_fit w g X Y); [by eexists | apply IH, Hk].
Qed.

Lemma run_shows_only {A : Type} (w : World) (P : output -> Prop) (p : prog A) :
  shows_only P p -> Forall P (fst (run w p)).
Proof.
  induction p as [a|e|o k IH|n k IH|df cols k IH|g k IH|g X Y k IH]; simpl.
  - constructor.
  - constructor.
  - intros [Ho Hk]. specialize (IH Hk). destruct (run w k). by constructor.
  - intros Hk. apply IH, Hk.
  - intros Hk. destruct (get_dummies w df cols); [constructor | apply IH, Hk].
  - intros Hk. destruct (gs_init w g); [constructor | apply IH, Hk].
  - intros Hk. destruct (gs_fit w g X Y); [constructor | apply IH, Hk].
Qed.

Lemma never_returns_bind {A B : Type} (p : prog A) (f : A -> prog B) :
  (forall a, never_returns (f a)) -> never_returns (bind p f).
Proof.
  intros Hf. induction p as [a|e|o k IH|n k IH|df cols k IH|g k IH|g X Y k IH];
    simpl; auto.
Qed.

Lemma shows_only_bind {A B : Type} (P : output -> Prop) (p : prog A) (f : A -> prog B) :
  shows_only P p -> (forall a, shows_only P (f a)) -> shows_only P (bind p f).
Proof.
  intros Hp Hf. induction p as [a|e|o k IH|n k IH|df cols k IH|g k IH|g X Y k IH];
    simpl in *; auto.
  destruct Hp. auto.
Qed.

Lemma shows_only_lift {A : Type} (P : output -> Prop) (r : exn + A) :
  shows_only P (lift r).
Proof. by destruct r. Qed.

(** The names the report step reads are bound nowhere at module scope. *)
Lemma report_names_unbound (s : Sidebar) (df dataset : DataFrame) (grid : ParamGrid) (name : string) :
  name ∈ ["Y_test"; "Y_pred_test"; "grid"; "X_test"] ->
  (<["dataset" := PyFrame dataset]> (module_namespace s df grid)) !! name = None.
Proof.
  intros Hname.
  repeat (apply elem_of_cons in Hname as [->|Hname]);
    [reflexivity..|by apply elem_of_nil in Hname].
Qed.

Lemma never_returns_bind_l {A B : Type} (p : prog A) (f : A -> prog B) :
  never_returns p -> never_returns (bind p f).
Proof.
  induction p as [a|e|o k IH|n k IH|df cols k IH|g k IH|g X Y k IH];
    simpl; auto; intros [].
Qed.

(** After [model(dataset)] the body of the button goes on to the report
    and stops at its first name: the rest of the body is never reached. *)
Lemma build_model_stops (s : Sidebar) (grid : ParamGrid) (df : DataFrame) :
  build_model s grid df (module_namespace s df grid) =
  bind (pd_get_dummies df dummy_columns) (fun dataset =>
    bind (model s grid dataset) (fun _ =>
      Emit (st_subheader "Classification Report") (Raise (NameError "Y_test")))).
Proof. reflexivity. Qed.

Lemma run_script_clicked (w : World) (s : Sidebar) (df : DataFrame) (grid : ParamGrid) :
  param_grid s = Some grid ->
  run w (script s df true) =
  match run w (build_model s grid df (module_namespace s df grid)) with
  | (out, inl e) => ((page_header df ++ out)%list, inl e)
  | (out, inr _) => ((page_header df ++ out)%list, inr tt)
  end.
Proof.
  intros Hg. unfold script. rewrite Hg.
  cbn [bind emit run]. rewrite run_bind.
  destruct (run w (build_model _ _ _ _)) as [out [e|ns]]; simpl.
  - reflexivity.
  - by rewrite app_nil_r.
Qed.

(** C3 (evaluation of the report step).  Whenever the grid builder, the
    encoding and [model(dataset)] complete, the run of the button's body
    ends right after the "Classification Report" heading with
    [NameError: name 'Y_test' is not defined]: the report step does not
    receive the labels and predictions that [model] computed, because
    they were locals of that call. *)
Theorem report_step_raises_NameError
    (w : World) (s : Sidebar) (df dataset : DataFrame) (grid : ParamGrid) (out : list output) :
  param_grid s = Some grid ->
  get_dummies w df dummy_columns = inr dataset ->
  run w (model s grid dataset) = (out, inr tt) ->
  run w (script s df true) =
    ((page_header df ++ out ++ [st_subheader "Classification Report"])%list,
     inl (NameError "Y_test")).
Proof.
  intros Hg Hd Hm.
  rewrite (run_script_clicked w s df grid Hg), build_model_stops.
  cbn [pd_get_dummies bind run]. rewrite Hd.
  rewrite run_bind, Hm. reflexivity.
Qed.

Lemma report_step_raises_NameError_witness :
  exists out,
    run identity_world (script (with_split default_sidebar 50) (sample_frame 53) true) =
      ((page_header (sample_frame 53) ++ out ++ [st_subheader "Classification Report"])%list,
       inl (NameError "Y_test")).
Proof.
  eexists.
  apply (report_step_raises_NameError identity_world (with_split default_sidebar 50)
           (sample_frame 53) (encoded (sample_frame 53)) default_grid).
  - reflexivity.
  - vm_compute. reflexivity.
  - vm_compute. reflexivity.
Defined.

Ltac shows_only_tac :=
  repeat match goal with
         | |- shows_only _ (bind _ _) => apply shows_only_bind
         | |- shows_only _ (lift _) => apply shows_only_lift
         | |- forall _, _ => intros
         | |- shows_only _ (match ?x with _ => _ end) => destruct x
         | |- shows_only _ (if ?c then _ else _) => destruct c
         | |- _ /\ _ => split
         | |- True => exact Logic.I
         | |- _ = _ => reflexivity
         | |- shows_only _ _ => progress cbn [shows_only emit np_random_permutation
                                               pd_get_dummies new_GridSearchCV GridSearchCV_fit]
         end.

Lemma model_shows_no_class_report (s : Sidebar) (grid : ParamGrid) (df : DataFrame) :
  shows_only (fun o => is_class_report o = false) (model s grid df).
Proof.
  unfold model, model_data, sklearn.train_test_split.
  shows_only_tac.
Qed.

(** C9 (evaluation of the report step).  No run of the button's body
    ends normally and none shows a per-class precision/recall entry,
    whatever the labels and predictions are, degenerate classes included:
    the run has raised before [classification_report] is called. *)
Theorem class_report_never_shown (w : World) (s : Sidebar) (df : DataFrame) :
  (exists e, snd (run w (script s df true)) = inl e) /\
  Forall (fun o => is_class_report o = false) (fst (run w (script s df true))).
Proof.
  split.
  - apply run_never_returns. unfold script.
    apply never_returns_bind. intros grid.
    cbn [bind emit never_returns]. apply never_returns_bind_l.
    rewrite build_model_stops.
    apply never_returns_bind. intros dataset.
    apply never_returns_bind. intros _. exact Logic.I.
  - apply run_shows_only. unfold script.
    apply shows_only_bind; [by destruct (param_grid s)|]. intros grid.
    cbn [bind emit shows_only]. split_and!; try reflexivity.
    apply shows_only_bind; [|by intros].
    rewrite build_model_stops.
    apply shows_only_bind; [by intros|]. intros dataset.
    apply shows_only_bind; [apply model_shows_no_class_report|].
    intros _. by split.
Qed.

Lemma model_shows_no_confusion_matrix (s : Sidebar) (grid : ParamGrid) (df : DataFrame) :
  shows_only (fun o => is_confusion_matrix_output o = false) (model s grid df).
Proof.
  unfold model, model_data, sklearn.train_test_split.
  shows_only_tac.
Qed.

(** C8 (evaluation of the confusion-matrix step).  No run of the
    button's body gets to lines 138-142: every run ends in an exception,
    and none shows the "Confusion Matrix" heading, a plot or the caption,
    so no confusion matrix of the test set is ever computed, whatever
    its entries would add up to.  Line 140 could not run either way: the
    names [grid], [X_test] and [Y_test] that it reads are bound nowhere
    at module scope. *)
Theorem confusion_matrix_never_shown (w : World) (s : Sidebar) (df : DataFrame) :
  (exists e, snd (run w (script s df true)) = inl e) /\
  Forall (fun o => is_confusion_matrix_output o = false) (fst (run w (script s df true))) /\
  (forall (grid : ParamGrid) (dataset : DataFrame) (name : string),
     name ∈ ["grid"; "X_test"; "Y_test"] ->
     (<["dataset" := PyFrame dataset]> (module_namespace s df grid)) !! name = None).
Proof.
  split_and!.
  - apply run_never_returns. unfold script.
    apply never_returns_bind. intros grid.
    cbn [bind emit never_returns]. apply never_returns_bind_l.
    rewrite build_model_stops.
    apply never_returns_bind. intros dataset.
    apply never_returns_bind. intros _. exact Logic.I.
  - apply run_shows_only. unfold script.
    apply shows_only_bind; [by destruct (param_grid s)|]. intros grid.
    cbn [bind emit shows_only]. split_and!; try reflexivity.
    apply shows_only_bind; [|by intros].
    rewrite build_model_stops.
    apply shows_only_bind; [by intros|]. intros dataset.
    apply shows_only_bind; [apply model_shows_no_confusion_matrix|].
    intros _. by split.
  - intros grid dataset name Hname. apply report_names_unbound.
    repeat (apply elem_of_cons in Hname as [->|Hname]);
      [repeat constructor..|by apply elem_of_nil in Hname].
Qed.

(** ** What the script does before the library's search *)

Lemma before_search_bind {A B : Type} (w : World) (p : prog A) (f : A -> prog B) :
  search_free p ->
  before_search w (bind p f) =
  match run w p with
  | (out, inl e) => (out, Raised e)
  | (out, inr a) => let '(out', r) := before_search w (f a) in ((out ++ out')%list, r)
  end.
Proof.
  induction p as [a|e|o k IH|n k IH|df cols k IH|g k IH|g X Y k IH]; simpl; intros Hp.
  - destruct (before_search w (f a)); reflexivity.
  - reflexivity.
  - rewrite IH by done. destruct (run w k) as [out [e|a]]; [reflexivity|].
    destruct (before_search w (f a)); reflexivity.
  - apply IH, Hp.
  - destruct (get_dummies w df cols); [reflexivity | apply IH, Hp].
  - destruct Hp.
  - destruct Hp.
Qed.

Lemma before_fit_bind {A B : Type} (w : World) (p : prog A) (f : A -> prog B) :
  search_free p ->
  before_fit w (bind p f) =
  match run w p with
  | (out, inl e) => (out, Raised e)
  | (out, inr a) => let '(out', r) := before_fit w (f a) in ((out ++ out')%list, r)
  end.
Proof.
  induction p as [a|e|o k IH|n k IH|df cols k IH|g k IH|g X Y k IH]; simpl; intros Hp.
  - destruct (before_fit w (f a)); reflexivity.
  - reflexivity.
  - rewrite IH by done. destruct (run w k) as [out [e|a]]; [reflexivity|].
    destruct (before_fit w (f a)); reflexivity.
  - apply IH, Hp.
  - destruct (get_dummies w df cols); [reflexivity | apply IH, Hp].
  - destruct Hp.
  - destruct Hp.
Qed.

Lemma search_free_bind {A B : Type} (p : prog A) (f : A -> prog B) :
  search_free p -> (forall a, search_free (f a)) -> search_free (bind p f).
Proof.
  intros Hp Hf. induction p as [a|e|o k IH|n k IH|df cols k IH|g k IH|g X Y k IH];
    simpl in *; auto.
Qed.

Lemma search_free_lift {A : Type} (r : exn + A) : search_free (lift r).
Proof. by destruct r. Qed.

Ltac search_free_tac :=
  repeat match goal with
         | |- search_free (bind _ _) => apply search_free_bind
         | |- search_free (lift _) => apply search_free_lift
         | |- forall _, _ => intros
         | |- search_free (match ?x with _ => _ end) => destruct x
         | |- search_free (if ?c then _ else _) => destruct c
         | |- True => exact Logic.I
         | |- search_free _ => progress cbn [search_free np_random_permutation]
         end.

(** Lines 62-71 make no call to the search. *)
Lemma model_data_search_free (s : Sidebar) (df : DataFrame) :
  search_free (model_data s df).
Proof. unfold model_data, sklearn.train_test_split. search_free_tac. Qed.

(** The first thing [model] asks of the search is its construction, with
    the grid and the fold count as the sidebar gave them; whether it gets
    there depends on lines 62-71 only. *)
Lemma before_search_model (w : World) (s : Sidebar) (grid : ParamGrid) (df : DataFrame) :
  snd (before_search w (model s grid df)) =
  match snd (run w (model_data s df)) with
  | inl e => Raised e
  | inr _ => AtSearch (model_search s grid)
  end.
Proof.
  unfold model. rewrite before_search_bind by apply model_data_search_free.
  destruct (run w (model_data s df)) as [out [e|[[[X_train X_test] Y_train] Y_test]]];
    reflexivity.
Qed.

Lemma before_fit_model (w : World) (s : Sidebar) (grid : ParamGrid) (df : DataFrame) :
  snd (before_fit w (model s grid df)) =
  match snd (run w (model_data s df)) with
  | inl e => Raised e
  | inr (X_train, _, Y_train, _) =>
      match gs_init w (model_search s grid) with
      | Some e => Raised e
      | None => AtFit (model_search s grid) X_train Y_train
      end
  end.
Proof.
  unfold model. rewrite before_fit_bind by apply model_data_search_free.
  destruct (run w (model_data s df)) as [out [e|[[[X_train X_test] Y_train] Y_test]]];
    [reflexivity|].
  cbn [new_GridSearchCV bind before_fit]. fold (model_search s grid).
  destruct (gs_init w (model_search s grid)); reflexivity.
Qed.

Lemma before_search_bind_any {A B : Type} (w : World) (p : prog A) (f : A -> prog B) :
  before_search w (bind p f) =
  match before_search w p with
  | (out, Returned a) => let '(out', r) := before_search w (f a) in ((out ++ out')%list, r)
  | (out, Raised e) => (out, Raised e)
  | (out, AtSearch g) => (out, AtSearch g)
  | (out, AtFit g X Y) => (out, AtFit g X Y)
  end.
Proof.
  induction p as [a|e|o k IH|n k IH|df cols k IH|g k IH|g X Y k IH]; simpl.
  - destruct (before_search w (f a)); reflexivity.
  - reflexivity.
  - rewrite IH. destruct (before_search w k) as [out [a|e|g|g X Y]]; try reflexivity.
    destruct (before_search w (f a)); reflexivity.
  - apply IH.
  - destruct (get_dummies w df cols); [reflexivity | apply IH].
  - reflexivity.
  - reflexivity.
Qed.

Lemma before_fit_bind_any {A B : Type} (w : World) (p : prog A) (f : A -> prog B) :
  before_fit w (bind p f) =
  match before_fit w p with
  | (out, Returned a) => let '(out', r) := before_fit w (f a) in ((out ++ out')%list, r)
  | (out, Raised e) => (out, Raised e)
  | (out, AtSearch g) => (out, AtSearch g)
  | (out, AtFit g X Y) => (out, AtFit g X Y)
  end.
Proof.
  induction p as [a|e|o k IH|n k IH|df cols k IH|g k IH|g X Y k IH]; simpl.
  - destruct (before_fit w (f a)); reflexivity.
  - reflexivity.
  - rewrite IH. destruct (before_fit w k) as [out [a|e|g|g X Y]]; try reflexivity.
    destruct (before_fit w (f a)); reflexivity.
  - apply IH.
  - destruct (get_dummies w df cols); [reflexivity | apply IH].
  - destruct (gs_init w g); [reflexivity | apply IH].
  - reflexivity.
Qed.

Lemma snd_before_search_bind {A B : Type} (w : World) (p : prog A) (f : A -> prog B) :
  snd (before_search w (bind p f)) =
  match snd (before_search w p) with
  | Returned a => snd (before_search w (f a))
  | Raised e => Raised e
  | AtSearch g => AtSearch g
  | AtFit g X Y => AtFit g X Y
  end.
Proof.
  rewrite before_search_bind_any.
  destruct (before_search w p) as [out [a|e|g|g X Y]]; try reflexivity.
  simpl. destruct (before_search w (f a)); reflexivity.
Qed.

Lemma snd_before_search_Emit {A : Type} (w : World) (o : output) (k : prog A) :
  snd (before_search w (Emit o k)) = snd (before_search w k).
Proof. simpl. destruct (before_search w k); reflexivity. Qed.

Lemma snd_before_fit_bind {A B : Type} (w : World) (p : prog A) (f : A -> prog B) :
  snd (before_fit w (bind p f)) =
  match snd (before_fit w p) with
  | Returned a => snd (before_fit w (f a))
  | Raised e => Raised e
  | AtSearch g => AtSearch g
  | AtFit g X Y => AtFit g X Y
  end.
Proof.
  rewrite before_fit_bind_any.
  destruct (before_fit w p) as [out [a|e|g|g X Y]]; try reflexivity.
  simpl. destruct (before_fit w (f a)); reflexivity.
Qed.

Lemma snd_before_fit_Emit {A : Type} (w : World) (o : output) (k : prog A) :
  snd (before_fit w (Emit o k)) = snd (before_fit w k).
Proof. simpl. destruct (before_fit w k); reflexivity. Qed.

(** The button's run up to the search: the grid builder, the encoding
    and lines 62-71 decide whether the search is reached; the search then
    gets the grid and the fold count as they are. *)
Lemma before_search_script (w : World) (s : Sidebar) (df : DataFrame) :
  snd (before_search w (script s df true)) =
  match param_grid s with
  | None => Raised ZeroDivisionError
  | Some grid =>
      match get_dummies w df dummy_columns with
      | inl e => Raised e
      | inr dataset =>
          match snd (run w (model_data s dataset)) with
          | inl e => Raised e
          | inr _ => AtSearch (model_search s grid)
          end
      end
  end.
Proof.
  unfold script. destruct (param_grid s) as [grid|]; [|reflexivity].
  cbn [bind emit]. rewrite !snd_before_search_Emit, snd_before_search_bind.
  rewrite build_model_stops. cbn [pd_get_dummies bind before_search].
  destruct (get_dummies w df dummy_columns) as [e|dataset]; [reflexivity|].
  rewrite snd_before_search_bind, before_search_model.
  destruct (run w (model_data s dataset)) as [out' [e|?]]; reflexivity.
Qed.

Lemma before_fit_script (w : World) (s : Sidebar) (df : DataFrame) :
  snd (before_fit w (script s df true)) =
  match param_grid s with
  | None => Raised ZeroDivisionError
  | Some grid =>
      match get_dummies w df dummy_columns with
      | inl e => Raised e
      | inr dataset =>
          match snd (run w (model_data s dataset)) with
          | inl e => Raised e
          | inr (X_train, _, Y_train, _) =>
              match gs_init w (model_search s grid) with
              | Some e => Raised e
              | None => AtFit (model_search s grid) X_train Y_train
              end
          end
      end
  end.
Proof.
  unfold script. destruct (param_grid s) as [grid|]; [|reflexivity].
  cbn [bind emit]. rewrite !snd_before_fit_Emit, snd_before_fit_bind.
  rewrite build_model_stops. cbn [pd_get_dummies bind before_fit].
  destruct (get_dummies w df dummy_columns) as [e|dataset]; [reflexivity|].
  rewrite snd_before_fit_bind, before_fit_model.
  destruct (run w (model_data s dataset)) as [out' [e|[[[X_train X_test] Y_train] Y_test]]];
    [reflexivity|].
  simpl. destruct (gs_init w (model_search s grid)); reflexivity.
Qed.

(** ** Configuration checks *)

Lemma param_grid_defined (s : Sidebar) :
  parameter_n_estimators_step s <> 0 ->
  parameter_max_depth_step s <> 0 ->
  exists ne md,
    n_estimators_range s = Some ne /\ max_depth_range s = Some md /\
    param_grid s = Some {| max_features := parameter_max_features s;
                           n_estimators := ne;
                           max_depth := md |}.
Proof.
  intros Hne Hmd. unfold param_grid, n_estimators_range, max_depth_range, np.arange.
  destruct (decide (parameter_n_estimators_step s = 0)); [done|].
  destruct (decide (parameter_max_depth_step s = 0)); [done|].
  eexists _, _. split_and!; reflexivity.
Qed.

(** C5 (the claim fails).  Default sidebar with every [max_features]
    option deselected, a frame of 100 rows: the grid builder returns a
    grid with an empty [max_features] dimension, and the run of the button
    gets as far as constructing [GridSearchCV] with that grid; up to there
    nothing was raised, so no "no candidate values" error either. *)
Lemma empty_max_features_reaches_GridSearchCV :
  parameter_max_features (with_max_features default_sidebar []) = [] /\
  param_grid (with_max_features default_sidebar []) =
    Some {| max_features := [];
            n_estimators := [10; 20; 30; 40; 50];
            max_depth := [5; 6; 7; 8] |} /\
  snd (before_search identity_world
         (script (with_max_features default_sidebar []) (sample_frame 100) true)) =
    AtSearch {| estimator := {| random_state := 42; bootstrap := true; n_jobs := 1 |};
                gs_param_grid := {| max_features := [];
                                    n_estimators := [10; 20; 30; 40; 50];
                                    max_depth := [5; 6; 7; 8] |};
                cv := 2 |} /\
  (forall e, snd (before_search identity_world
                    (script (with_max_features default_sidebar []) (sample_frame 100) true))
             <> Raised e).
Proof.
  assert (snd (before_search identity_world
            (script (with_max_features default_sidebar []) (sample_frame 100) true)) =
          AtSearch {| estimator := {| random_state := 42; bootstrap := true; n_jobs := 1 |};
                      gs_param_grid := {| max_features := [];
                                          n_estimators := [10; 20; 30; 40; 50];
                                          max_depth := [5; 6; 7; 8] |};
                      cv := 2 |}) as Hrun
    by (vm_compute; reflexivity).
  split_and!; [reflexivity | reflexivity | exact Hrun |].
  intros e. rewrite Hrun. discriminate.
Qed.

(** C5 (amended).  With an empty [max_features] selection (and non-zero
    steps) the grid builder raises nothing and returns a grid whose
    [max_features] dimension is empty.  The script has no check of its
    own: the run of the button either reaches the construction of
    [GridSearchCV] and hands it that grid unchanged, or it has raised
    before for a reason that does not depend on the selection (the same
    exception is raised for every other selection). *)
Theorem empty_max_features_handed_to_search (w : World) (s : Sidebar) (df : DataFrame) :
  parameter_max_features s = [] ->
  parameter_n_estimators_step s <> 0 ->
  parameter_max_depth_step s <> 0 ->
  exists grid,
    param_grid s = Some grid /\ max_features grid = [] /\
    (snd (before_search w (script s df true)) = AtSearch (model_search s grid) \/
     exists e,
       snd (before_search w (script s df true)) = Raised e /\
       forall l, snd (before_search w (script (with_max_features s l) df true)) = Raised e).
Proof.
  intros Hempty Hne Hmd.
  destruct (param_grid_defined s Hne Hmd) as (ne & md & Hner & Hmdr & Hgrid).
  eexists. split; [exact Hgrid|]. split; [exact Hempty|].
  rewrite before_search_script, Hgrid.
  destruct (get_dummies w df dummy_columns) as [e|dataset] eqn:Hd.
  - right. exists e. split; [reflexivity|]. intros l.
    rewrite before_search_script.
    destruct (param_grid_defined (with_max_features s l) Hne Hmd) as (? & ? & _ & _ & ->).
    by rewrite Hd.
  - destruct (run w (model_data s dataset)) as [out [e|data]] eqn:Hrun.
    + right. exists e. split; [reflexivity|]. intros l.
      rewrite before_search_script.
      destruct (param_grid_defined (with_max_features s l) Hne Hmd) as (? & ? & _ & _ & ->).
      rewrite Hd.
      change (model_data (with_max_features s l) dataset) with (model_data s dataset).
      by rewrite Hrun.
    + left. reflexivity.
Qed.

Lemma empty_max_features_handed_to_search_witness :
  exists grid,
    param_grid (with_max_features (with_split default_sidebar 50) []) = Some grid /\
    max_features grid = [] /\
    (snd (before_search reversed_world
            (script (with_max_features (with_split default_sidebar 50) []) (sample_frame 60) true))
       = AtSearch (model_search (with_max_features (with_split default_sidebar 50) []) grid) \/
     exists e,
       snd (before_search reversed_world
              (script (with_max_features (with_split default_sidebar 50) []) (sample_frame 60) true))
         = Raised e /\
       forall l,
         snd (before_search reversed_world
                (script (with_max_features (with_max_features (with_split default_sidebar 50) []) l)
                        (sample_frame 60) true))
           = Raised e).
Proof.
  apply (empty_max_features_handed_to_search reversed_world
           (with_max_features (with_split default_sidebar 50) []) (sample_frame 60)).
  - reflexivity.
  - simpl. lia.
  - simpl. lia.
Defined.

(** C6 (the claim fails).  Ten folds, a frame of 53 rows and the split
    slider at 50: three rows are left for training, fewer than folds, and
    the run of the button goes all the way to [grid.fit] with ten folds
    and those three rows; nothing was raised before the library's call. *)
Lemma ten_folds_on_three_training_rows :
  exists (g : GridSearchCV) (X_train : list (list float)) (Y_train : list cell),
    snd (before_fit identity_world
           (script (with_cross_validation (with_split default_sidebar 50) 10)
                   (sample_frame 53) true))
      = AtFit g X_train Y_train /\
    cv g = 10 /\ length X_train = 3%nat /\ length Y_train = 3%nat /\
    (forall e, snd (before_fit identity_world
                      (script (with_cross_validation (with_split default_sidebar 50) 10)
                              (sample_frame 53) true))
               <> Raised e).
Proof.
  pose (r := snd (before_fit identity_world
                    (script (with_cross_validation (with_split default_sidebar 50) 10)
                            (sample_frame 53) true))).
  exists (match r with AtFit g _ _ => g | _ => model_search default_sidebar
                                                {| max_features := []; n_estimators := [];
                                                   max_depth := [] |} end),
         (match r with AtFit _ X _ => X | _ => [] end),
         (match r with AtFit _ _ Y => Y | _ => [] end).
  fold r. split_and!.
  - vm_compute. reflexivity.
  - vm_compute. reflexivity.
  - vm_compute. reflexivity.
  - vm_compute. reflexivity.
  - intros e. vm_compute. discriminate.
Qed.

(** C6 (amended).  When the fold count exceeds the number of training
    rows, the script still performs no check of its own: once the data are
    prepared and the constructor has accepted its arguments, [fit] is
    called with the fold count of the slider, unchanged, on the training
    partition.  An error about the folds can only come from inside the
    library's [fit]. *)
Theorem fold_count_handed_to_fit
    (w : World) (s : Sidebar) (df dataset : DataFrame) (grid : ParamGrid)
    (out : list output) (X_train X_test : list (list float)) (Y_train Y_test : list cell) :
  param_grid s = Some grid ->
  get_dummies w df dummy_columns = inr dataset ->
  run w (model_data s dataset) = (out, inr (X_train, X_test, Y_train, Y_test)) ->
  gs_init w (model_search s grid) = None ->
  Z.of_nat (length X_train) < parameter_cross_validation s ->
  snd (before_fit w (script s df true)) = AtFit (model_search s grid) X_train Y_train /\
  cv (model_search s grid) = parameter_cross_validation s.
Proof.
  intros Hgrid Hd Hrun Hinit _.
  rewrite before_fit_script, Hgrid, Hd, Hrun. simpl. rewrite Hinit.
  split; reflexivity.
Qed.

Lemma fold_count_handed_to_fit_witness :
  exists (X_train : list (list float)) (Y_train : list cell),
    snd (before_fit identity_world
           (script (with_cross_validation (with_split default_sidebar 50) 10)
                   (sample_frame 53) true))
      = AtFit (model_search (with_cross_validation (with_split default_sidebar 50) 10)
                 {| max_features := ["auto"];
                    n_estimators := [10; 20; 30; 40; 50];
                    max_depth := [5; 6; 7; 8] |})
              X_train Y_train /\
    cv (model_search (with_cross_validation (with_split default_sidebar 50) 10)
          {| max_features := ["auto"];
             n_estimators := [10; 20; 30; 40; 50];
             max_depth := [5; 6; 7; 8] |}) = 10.
Proof.
  eexists _, _.
  eapply (fold_count_handed_to_fit identity_world
            (with_cross_validation (with_split default_sidebar 50) 10)
            (sample_frame 53) (encoded (sample_frame 53))).
  - reflexivity.
  - vm_compute. reflexivity.
  - vm_compute. reflexivity.
  - reflexivity.
  - vm_compute. reflexivity.
Defined.

(** ** Standardisation *)

Lemma fit_attributes (sc0 sc : sklearn.StandardScaler) (X : list (list float)) :
  sklearn.fit sc0 X = inr sc ->
  exists p,
    sklearn.check_array X = inr p /\
    sklearn.mean_ sc = Some (sklearn.mean <$> sklearn.feature_columns p X) /\
    sklearn.var_ sc = Some (sklearn.variance <$> sklearn.feature_columns p X) /\
    sklearn.scale_ sc =
      Some ((fun c => sklearn.handle_zeros_in_scale (PrimFloat.sqrt (sklearn.variance c)))
              <$> sklearn.feature_columns p X).
Proof.
  unfold sklearn.fit. destruct (sklearn.check_array X) as [e|p]; [discriminate|].
  intros [= <-]. exists p. by split_and!.
Qed.

(** Lines 69-71 taken apart: the one scaler object is fitted on the
    first argument and then transforms both. *)
Lemma standardization_inv
    (X_train X_test X_train' X_test' : list (list float)) (sc : sklearn.StandardScaler) :
  standardization X_train X_test = inr (sc, X_train', X_test') ->
  sklearn.fit sklearn.new_StandardScaler X_train = inr sc /\
  sklearn.transform sc X_train = inr X_train' /\
  sklearn.transform sc X_test = inr X_test'.
Proof.
  unfold standardization, sklearn.fit_transform.
  destruct (sklearn.fit sklearn.new_StandardScaler X_train) as [e|sc1] eqn:Hfit;
    [discriminate|].
  destruct (sklearn.transform sc1 X_train) as [e|Xt] eqn:Htr; [discriminate|].
  destruct (sklearn.transform sc1 X_test) as [e|Xs] eqn:Hte; [discriminate|].
  intros [= <- <- <-]. by split_and!.
Qed.

(** A completed run of lines 62-71 taken apart. *)
Lemma model_data_inv (w : World) (s : Sidebar) (dataset : DataFrame) (out : list output)
    (A B : list (list float)) (Y_train Y_test : list cell) :
  run w (model_data s dataset) = (out, inr (A, B, Y_train, Y_test)) ->
  out = [] /\
  exists (X : DataFrame) (Y : list cell) (X_train X_test : list (list cell))
         (sc : sklearn.StandardScaler),
    pd.drop dataset "target" = inr X /\
    pd.getitem dataset "target" = inr Y /\
    run w (sklearn.train_test_split (rows X) Y (split_size s))
      = ([], inr (X_train, X_test, Y_train, Y_test)) /\
    standardization (pd.to_numpy X_train) (pd.to_numpy X_test) = inr (sc, A, B).
Proof.
  unfold model_data. intros H.
  apply run_bind_inr in H as (o1 & Y & o2 & HY & H & ->).
  apply run_lift_inr in HY as [HY ->].
  apply run_bind_inr in H as (o1 & X & o3 & HX & H & ->).
  apply run_lift_inr in HX as [HX ->].
  apply run_bind_inr in H as (o1 & [[[X_train X_test] Ytr] Yte] & o4 & Hsplit & H & ->).
  pose proof (train_test_split_silent _ _ _ _ _ _ Hsplit) as ->.
  apply run_bind_inr in H as (o1 & [[sc A'] B'] & o5 & Hstd & H & ->).
  apply run_lift_inr in Hstd as [Hstd ->].
  simpl in H. injection H as <- <- <- <- <-.
  split; [reflexivity|].
  by exists X, Y, X_train, X_test, sc.
Qed.

(** C7.  In every run in which lines 62-71 complete, the arrays they
    leave behind are standardised with statistics of the training
    partition of the split only: the scaler's mean, variance and scale
    are the per-feature mean, variance and (zero-safe) standard deviation
    of the training rows that [train_test_split] returned, the test rows
    appear in none of them, and the training array and the test array
    are both the transform of that one scaler.  These two arrays are the
    ones the rest of [model] uses: the search is fitted on the
    standardised training array, and the accuracy shown is that of the
    predictions on the standardised test array. *)
Theorem pipeline_standardizes_on_train_only
    (w : World) (s : Sidebar) (grid : ParamGrid) (dataset : DataFrame) (out : list output)
    (A B : list (list float)) (Y_train Y_test : list cell) :
  run w (model_data s dataset) = (out, inr (A, B, Y_train, Y_test)) ->
  (exists (X : DataFrame) (Y : list cell) (X_train X_test : list (list cell))
          (p : nat) (sc : sklearn.StandardScaler),
     pd.drop dataset "target" = inr X /\
     pd.getitem dataset "target" = inr Y /\
     run w (sklearn.train_test_split (rows X) Y (split_size s))
       = ([], inr (X_train, X_test, Y_train, Y_test)) /\
     sklearn.check_array (pd.to_numpy X_train) = inr p /\
     sklearn.mean_ sc
       = Some (sklearn.mean <$> sklearn.feature_columns p (pd.to_numpy X_train)) /\
     sklearn.var_ sc
       = Some (sklearn.variance <$> sklearn.feature_columns p (pd.to_numpy X_train)) /\
     sklearn.scale_ sc
       = Some ((fun c => sklearn.handle_zeros_in_scale (PrimFloat.sqrt (sklearn.variance c)))
                 <$> sklearn.feature_columns p (pd.to_numpy X_train)) /\
     sklearn.transform sc (pd.to_numpy X_train) = inr A /\
     sklearn.transform sc (pd.to_numpy X_test) = inr B) /\
  (gs_init w (model_search s grid) = None ->
   snd (before_fit w (model s grid dataset)) = AtFit (model_search s grid) A Y_train) /\
  (forall (fitted : Fitted) (acc : float),
     gs_init w (model_search s grid) = None ->
     gs_fit w (model_search s grid) A Y_train = inr fitted ->
     sklearn.accuracy_score Y_test (predict_one fitted <$> B) = inr acc ->
     st_info acc ∈ fst (run w (model s grid dataset))).
Proof.
  intros Hrun.
  destruct (model_data_inv w s dataset out A B Y_train Y_test Hrun)
    as (-> & X & Y & X_train & X_test & sc & HX & HY & Hsplit & Hstd).
  apply standardization_inv in Hstd as (Hfit & Htrain & Htest).
  apply fit_attributes in Hfit as (p & Hp & Hmean & Hvar & Hscale).
  split_and!.
  - by exists X, Y, X_train, X_test, p, sc.
  - intros Hinit. by rewrite before_fit_model, Hrun, Hinit.
  - intros fitted acc Hinit Hfitted Hacc.
    unfold model. rewrite run_bind, Hrun.
    cbn [new_GridSearchCV bind run]. fold (model_search s grid). rewrite Hinit.
    cbn [GridSearchCV_fit bind run]. rewrite Hfitted.
    cbn [emit bind run]. rewrite Hacc. cbn [lift emit bind run].
    destruct (pd.surface _) as [e|[[x y] z]]; cbn [lift emit bind run fst app];
      do 2 apply list_elem_of_further; apply list_elem_of_here.
Qed.

Lemma pipeline_standardizes_on_train_only_witness :
  (exists (X : DataFrame) (Y : list cell) (X_train X_test : list (list cell))
          (p : nat) (sc : sklearn.StandardScaler),
     pd.drop (encoded (sample_frame 100)) "target" = inr X /\
     pd.getitem (encoded (sample_frame 100)) "target" = inr Y /\
     run identity_world (sklearn.train_test_split (rows X) Y (split_size default_sidebar))
       = ([], inr (X_train, X_test,
                   (model_arrays identity_world default_sidebar (encoded (sample_frame 100))).1.2,
                   (model_arrays identity_world default_sidebar (encoded (sample_frame 100))).2)) /\
     sklearn.check_array (pd.to_numpy X_train) = inr p /\
     sklearn.mean_ sc
       = Some (sklearn.mean <$> sklearn.feature_columns p (pd.to_numpy X_train)) /\
     sklearn.var_ sc
       = Some (sklearn.variance <$> sklearn.feature_columns p (pd.to_numpy X_train)) /\
     sklearn.scale_ sc
       = Some ((fun c => sklearn.handle_zeros_in_scale (PrimFloat.sqrt (sklearn.variance c)))
                 <$> sklearn.feature_columns p (pd.to_numpy X_train)) /\
     sklearn.transform sc (pd.to_numpy X_train)
       = inr (model_arrays identity_world default_sidebar (encoded (sample_frame 100))).1.1.1 /\
     sklearn.transform sc (pd.to_numpy X_test)
       = inr (model_arrays identity_world default_sidebar (encoded (sample_frame 100))).1.1.2) /\
  (gs_init identity_world (model_search default_sidebar default_grid) = None ->
   snd (before_fit identity_world (model default_sidebar default_grid (encoded (sample_frame 100))))
     = AtFit (model_search default_sidebar default_grid)
             (model_arrays identity_world default_sidebar (encoded (sample_frame 100))).1.1.1
             (model_arrays identity_world default_sidebar (encoded (sample_frame 100))).1.2) /\
  (forall (fitted : Fitted) (acc : float),
     gs_init identity_world (model_search default_sidebar default_grid) = None ->
     gs_fit identity_world (model_search default_sidebar default_grid)
            (model_arrays identity_world default_sidebar (encoded (sample_frame 100))).1.1.1
            (model_arrays identity_world default_sidebar (encoded (sample_frame 100))).1.2
       = inr fitted ->
     sklearn.accuracy_score
       (model_arrays identity_world default_sidebar (encoded (sample_frame 100))).2
       (predict_one fitted
          <$> (model_arrays identity_world default_sidebar (encoded (sample_frame 100))).1.1.2)
       = inr acc ->
     st_info acc
       ∈ fst (run identity_world (model default_sidebar default_grid (encoded (sample_frame 100))))).
Proof.
  apply (pipeline_standardizes_on_train_only identity_world default_sidebar default_grid
           (encoded (sample_frame 100)) []).
  vm_compute. reflexivity.
Defined.

(** ** Sorted distinct values *)

Lemma elem_of_sort_uniq (l : list Z) (x : Z) : x ∈ sort_uniq l <-> x ∈ l.
Proof.
  unfold sort_uniq. rewrite merge_sort_Permutation. apply elem_of_remove_dups.
Qed.

Lemma NoDup_sort_uniq (l : list Z) : NoDup (sort_uniq l).
Proof.
  unfold sort_uniq. rewrite merge_sort_Permutation. apply NoDup_remove_dups.
Qed.

Lemma sort_uniq_sorted (l : list Z) : StronglySorted Z.le (sort_uniq l).
Proof. apply StronglySorted_merge_sort; apply _. Qed.

Lemma StronglySorted_le_NoDup_lt (l : list Z) :
  StronglySorted Z.le l -> NoDup l -> StronglySorted Z.lt l.
Proof.
  induction 1 as [|x l Hl IH Hx]; intros Hnd; [constructor|].
  apply NoDup_cons in Hnd as [Hnotin Hnd].
  constructor; [by apply IH|].
  apply Forall_forall. intros y Hy.
  rewrite Forall_forall in Hx. specialize (Hx y Hy).
  assert (x <> y) by (intros ->; done). lia.
Qed.

(** [sort_uniq l] is strictly ascending and has exactly the values of
    [l]. *)
Lemma sort_uniq_spec (l : list Z) :
  StronglySorted Z.lt (sort_uniq l) /\ forall x, x ∈ sort_uniq l <-> x ∈ l.
Proof.
  split.
  - apply StronglySorted_le_NoDup_lt; [apply sort_uniq_sorted | apply NoDup_sort_uniq].
  - apply elem_of_sort_uniq.
Qed.

Lemma sort_uniq_same_values (l k : list Z) :
  (forall x, x ∈ l <-> x ∈ k) -> sort_uniq l = sort_uniq k.
Proof.
  intros Hlk.
  apply (StronglySorted_unique Z.le); [apply sort_uniq_sorted..|].
  apply NoDup_Permutation; [apply NoDup_sort_uniq..|].
  intros x. rewrite !elem_of_sort_uniq. apply Hlk.
Qed.

(** ** The confusion matrix, had it been computed

    The library's table itself accounts for every test sample; the script
    never gets to ask for it. *)

Lemma count_cons {A : Type} (f : A -> bool) (x : A) (l : list A) :
  sklearn.count f (x :: l) = ((if f x then 1 else 0) + sklearn.count f l)%nat.
Proof. unfold sklearn.count. simpl. by destruct (f x). Qed.

Lemma count_all {A : Type} (f : A -> bool) (l : list A) :
  Forall (fun x => f x = true) l -> sklearn.count f l = length l.
Proof.
  induction 1 as [|x l Hx _ IH]; [reflexivity|].
  rewrite count_cons, IH, Hx. reflexivity.
Qed.

Lemma sum_list_cons (x : nat) (l : list nat) :
  sum_list (x :: l) = (x + sum_list l)%nat.
Proof. reflexivity. Qed.

Lemma sum_list_fmap_zero {A : Type} (l : list A) :
  sum_list ((fun _ => 0%nat) <$> l) = 0%nat.
Proof.
  induction l as [|x l IH]; [reflexivity|].
  rewrite fmap_cons, sum_list_cons, IH. reflexivity.
Qed.

Lemma sum_list_fmap_plus {A : Type} (f g : A -> nat) (l : list A) :
  sum_list ((fun x => (f x + g x)%nat) <$> l) =
  (sum_list (f <$> l) + sum_list (g <$> l))%nat.
Proof.
  induction l as [|x l IH]; [reflexivity|].
  rewrite !fmap_cons, !sum_list_cons, IH. lia.
Qed.

Lemma sum_list_indicator (a : Z) (l : list Z) :
  NoDup l ->
  sum_list ((fun x => if decide (a = x) then 1%nat else 0%nat) <$> l) =
  if decide (a ∈ l) then 1%nat else 0%nat.
Proof.
  induction 1 as [|x l Hx Hnd IH].
  - destruct (decide (a ∈ [])) as [Hin|]; [by apply elem_of_nil in Hin | reflexivity].
  - rewrite fmap_cons, sum_list_cons, IH.
    destruct (decide (a = x)) as [->|Hne].
    + destruct (decide (x ∈ l)); [done|].
      destruct (decide (x ∈ x :: l)) as [|Hn]; [reflexivity|].
      exfalso. apply Hn, list_elem_of_here.
    + destruct (decide (a ∈ l)) as [Hin|Hnin].
      * destruct (decide (a ∈ x :: l)) as [|Hn]; [reflexivity|].
        exfalso. by apply Hn, list_elem_of_further.
      * destruct (decide (a ∈ x :: l)) as [Hin|]; [|reflexivity].
        apply elem_of_cons in Hin as [?|?]; done.
Qed.

Section Tabulate.

Variable labels : list Z.
Hypothesis labels_distinct : NoDup labels.

(** The table of [confusion_matrix] over [labels]. *)
Let table (pairs : list (Z * Z)) : list (list nat) :=
  (fun t => (fun p => sklearn.count (fun q => bool_decide (q = (t, p))) pairs) <$> labels)
    <$> labels.

Lemma sum_row_indicator (a b t : Z) :
  sum_list ((fun p => if bool_decide ((a, b) = (t, p)) then 1%nat else 0%nat) <$> labels) =
  if decide (a = t) then (if decide (b ∈ labels) then 1%nat else 0%nat) else 0%nat.
Proof using labels_distinct.
  destruct (decide (a = t)) as [->|Hne].
  - rewrite <- (sum_list_indicator b labels labels_distinct).
    f_equal. apply list_fmap_ext. intros _ p _.
    case_bool_decide; case_decide; congruence.
  - transitivity (sum_list ((fun _ : Z => 0%nat) <$> labels));
      [|apply sum_list_fmap_zero].
    f_equal. apply list_fmap_ext. intros _ p _.
    case_bool_decide; congruence.
Qed.

Lemma table_total (pairs : list (Z * Z)) :
  matrix_total (table pairs) =
  sklearn.count (fun q => bool_decide (q.1 ∈ labels /\ q.2 ∈ labels)) pairs.
Proof using labels_distinct.
  unfold matrix_total, table. rewrite <- list_fmap_compose.
  induction pairs as [|[a b] pairs IH].
  - transitivity (sum_list ((fun _ : Z => 0%nat) <$> labels));
      [|apply sum_list_fmap_zero].
    f_equal. apply list_fmap_ext. intros _ t _. simpl.
    apply sum_list_fmap_zero.
  - rewrite count_cons, <- IH. clear IH.
    set (rest := fun t : Z =>
           sum_list ((fun p => sklearn.count (fun q => bool_decide (q = (t, p))) pairs)
                       <$> labels)).
    set (ind := fun t : Z =>
           if decide (a = t)
           then (if decide (b ∈ labels) then 1%nat else 0%nat) else 0%nat).
    transitivity (sum_list ((fun t => (ind t + rest t)%nat) <$> labels)).
    + f_equal. apply list_fmap_ext. intros _ t _. unfold ind, rest. simpl.
      rewrite <- sum_row_indicator, <- sum_list_fmap_plus.
      f_equal. apply list_fmap_ext. intros _ p _.
      apply (count_cons (fun q => bool_decide (q = (t, p)))).
    + rewrite sum_list_fmap_plus. f_equal. unfold ind. simpl.
      destruct (decide (b ∈ labels)) as [Hb|Hb].
      * rewrite sum_list_indicator by done.
        case_bool_decide; case_decide; tauto.
      * transitivity (sum_list ((fun _ : Z => 0%nat) <$> labels)).
        -- f_equal. apply list_fmap_ext. intros _ t _. by case_decide.
        -- rewrite sum_list_fmap_zero. case_bool_decide; tauto.
Qed.

End Tabulate.

(** Whenever [plot_confusion_matrix] returns a matrix for an estimator,
    test features and test labels, the entries of the matrix add up to
    the number of test samples. *)
Lemma confusion_matrix_total
    (est : Fitted) (X_test : list (list float)) (Y_test : list cell)
    (display_labels : list string) (cm : list (list nat)) :
  sklearn.plot_confusion_matrix est X_test Y_test display_labels = inr cm ->
  matrix_total cm = length Y_test.
Proof.
  unfold sklearn.plot_confusion_matrix, sklearn.confusion_matrix, sklearn.check_targets.
  destruct (decide _) as [Hlen|]; [|discriminate].
  destruct (mapM _ Y_test) as [yt|] eqn:Hyt; [|discriminate].
  destruct (decide _); [|discriminate].
  intros [= <-].
  apply length_mapM in Hyt.
  set (pairs := zip yt (predict_one est <$> X_test)).
  rewrite (table_total (sklearn.unique_labels pairs) (NoDup_sort_uniq _)).
  rewrite count_all.
  - unfold pairs. rewrite length_zip. lia.
  - apply Forall_forall. intros [a b] Hq. apply bool_decide_eq_true. simpl.
    unfold sklearn.unique_labels. rewrite !elem_of_sort_uniq, !elem_of_app.
    split; [left | right]; apply list_elem_of_fmap; by exists (a, b).
Qed.

(** ** The accuracy surface *)

Lemma group_nonempty (t : list pd.ScoreRow) (d n : Z) :
  pd.group t d n <> [] <->
  exists r, r ∈ t /\ pd.sr_max_depth r = d /\ pd.sr_n_estimators r = n.
Proof.
  unfold pd.group. split.
  - intros Hne.
    destruct (filter _ t) as [|r l] eqn:Hf; [done|].
    assert (r ∈ filter (fun r => pd.sr_max_depth r = d /\ pd.sr_n_estimators r = n) t) as Hr
      by (rewrite Hf; apply list_elem_of_here).
    apply list_elem_of_filter in Hr as [[? ?] ?]. by exists r.
  - intros (r & Hr & Hd & Hn) Hnil. apply fmap_nil_inv in Hnil.
    eapply (filter_nil_not_elem_of _ _ r Hnil); [by split | done].
Qed.

Lemma elem_of_group_keys (t : list pd.ScoreRow) (d n : Z) :
  (d, n) ∈ pd.group_keys t <-> pd.group t d n <> [].
Proof.
  unfold pd.group_keys. rewrite list_elem_of_bind. split.
  - intros (d' & Hin & _). apply list_elem_of_bind in Hin as (n' & Hin & _).
    destruct (decide (pd.group t d' n' = [])); [by apply elem_of_nil in Hin|].
    apply list_elem_of_singleton in Hin as [= -> ->]. done.
  - intros Hne. pose proof Hne as (r & Hr & <- & <-)%group_nonempty.
    exists (pd.sr_max_depth r). split.
    + apply list_elem_of_bind. exists (pd.sr_n_estimators r). split.
      * destruct (decide _); [done | apply list_elem_of_here].
      * apply elem_of_sort_uniq. by apply list_elem_of_fmap_2.
    + apply elem_of_sort_uniq. by apply list_elem_of_fmap_2.
Qed.

Lemma NoDup_group_keys (t : list pd.ScoreRow) : NoDup (pd.group_keys t).
Proof.
  unfold pd.group_keys. apply NoDup_bind; [| |apply NoDup_sort_uniq].
  - intros d1 d2 k _ _ H1 H2.
    apply list_elem_of_bind in H1 as (n1 & H1 & _).
    apply list_elem_of_bind in H2 as (n2 & H2 & _).
    destruct (decide _); [by apply elem_of_nil in H1|].
    destruct (decide _); [by apply elem_of_nil in H2|].
    apply list_elem_of_singleton in H1, H2. congruence.
  - intros d _. apply NoDup_bind; [| |apply NoDup_sort_uniq].
    + intros n1 n2 k _ _ H1 H2.
      destruct (decide _); [by apply elem_of_nil in H1|].
      destruct (decide _); [by apply elem_of_nil in H2|].
      apply list_elem_of_singleton in H1, H2. congruence.
    + intros n _. destruct (decide _); [constructor | apply NoDup_singleton].
Qed.

Lemma groupby_mean_keys (t : list pd.ScoreRow) :
  fst <$> pd.groupby_mean t = pd.group_keys t.
Proof.
  unfold pd.groupby_mean. rewrite <- list_fmap_compose.
  rewrite <- (list_fmap_id (pd.group_keys t)) at 2.
  apply list_fmap_ext. by intros _ k _.
Qed.

Lemma groupby_mean_depths (t : list pd.ScoreRow) :
  sort_uniq ((fun r => r.1.1) <$> pd.groupby_mean t) = sort_uniq (pd.sr_max_depth <$> t).
Proof.
  apply sort_uniq_same_values. intros d.
  unfold pd.groupby_mean. rewrite <- list_fmap_compose. split.
  - intros ([d' n] & -> & Hk)%list_elem_of_fmap. simpl.
    apply elem_of_group_keys, group_nonempty in Hk as (r & Hr & <- & _).
    by apply list_elem_of_fmap_2.
  - intros (r & -> & Hr)%list_elem_of_fmap.
    apply list_elem_of_fmap. exists (pd.sr_max_depth r, pd.sr_n_estimators r).
    split; [done|]. apply elem_of_group_keys, group_nonempty. by exists r.
Qed.

Lemma groupby_mean_estimators (t : list pd.ScoreRow) :
  sort_uniq ((fun r => r.1.2) <$> pd.groupby_mean t) = sort_uniq (pd.sr_n_estimators <$> t).
Proof.
  apply sort_uniq_same_values. intros n.
  unfold pd.groupby_mean. rewrite <- list_fmap_compose. split.
  - intros ([d n'] & -> & Hk)%list_elem_of_fmap. simpl.
    apply elem_of_group_keys, group_nonempty in Hk as (r & Hr & _ & <-).
    by apply list_elem_of_fmap_2.
  - intros (r & -> & Hr)%list_elem_of_fmap.
    apply list_elem_of_fmap. exists (pd.sr_max_depth r, pd.sr_n_estimators r).
    split; [done|]. apply elem_of_group_keys, group_nonempty. by exists r.
Qed.

(** A cell of the pivot is the group's mean when the key pair occurs in
    the table, and NaN when it does not. *)
Lemma cell_at_groupby_mean (t : list pd.ScoreRow) (d n : Z) :
  pd.cell_at (pd.groupby_mean t) d n =
  if decide (pd.group t d n = []) then nan else pd.nanmean (pd.group t d n).
Proof.
  unfold pd.cell_at, pd.groupby_mean. rewrite list_find_fmap.
  destruct (list_find _ (pd.group_keys t)) as [[i k]|] eqn:Hfind; simpl.
  - apply list_find_Some in Hfind as (Hi & Hk & _). simpl in Hk. subst k.
    apply list_elem_of_lookup_2, elem_of_group_keys in Hi.
    destruct (decide _); done.
  - destruct (decide (pd.group t d n = [])) as [|Hne]; [done|].
    apply elem_of_group_keys in Hne.
    rewrite list_find_None, Forall_forall in Hfind.
    by destruct (Hfind _ Hne).
Qed.

Lemma nan_is_nan : PrimFloat.is_nan nan = true.
Proof. reflexivity. Qed.

(** C10.  For every score table with at least one row, rectangular or
    not, lines 94-100 raise nothing and return a grid: [x] is the strictly
    ascending list of the distinct [n_estimators] values, [y] that of the
    distinct [max_depth] values, [z] has one row per [y] value and one
    cell per [x] value, and the cell of a pair is the mean accuracy of the
    pair's rows, or NaN when the table has no row for the pair. *)
Theorem surface_is_grid (t : list pd.ScoreRow) :
  t <> [] ->
  exists (x y : list Z) (z : list (list float)),
    pd.surface t = inr (x, y, z) /\
    (StronglySorted Z.lt x /\ forall n, n ∈ x <-> n ∈ pd.sr_n_estimators <$> t) /\
    (StronglySorted Z.lt y /\ forall d, d ∈ y <-> d ∈ pd.sr_max_depth <$> t) /\
    length z = length y /\
    Forall (fun zrow => length zrow = length x) z /\
    (forall i j d n, y !! i = Some d -> x !! j = Some n ->
       exists zrow c,
         z !! i = Some zrow /\ zrow !! j = Some c /\
         ((forall r, r ∈ t -> ~ (pd.sr_max_depth r = d /\ pd.sr_n_estimators r = n)) ->
          PrimFloat.is_nan c = true) /\
         ((exists r, r ∈ t /\ pd.sr_max_depth r = d /\ pd.sr_n_estimators r = n) ->
          c = pd.nanmean (pd.group t d n))).
Proof.
  intros Hne.
  exists (sort_uniq (pd.sr_n_estimators <$> t)), (sort_uniq (pd.sr_max_depth <$> t)).
  eexists. split_and!.
  - unfold pd.surface. destruct t as [|r t]; [done|].
    unfold pd.pivot. rewrite groupby_mean_keys.
    destruct (decide (NoDup _)) as [_|Hdup]; [|destruct Hdup; apply NoDup_group_keys].
    rewrite groupby_mean_estimators, groupby_mean_depths. reflexivity.
  - apply sort_uniq_spec.
  - apply sort_uniq_spec.
  - apply sort_uniq_spec.
  - apply sort_uniq_spec.
  - by rewrite length_fmap.
  - apply Forall_fmap, Forall_forall. intros d _. simpl. by rewrite length_fmap.
  - intros i j d n Hi Hj.
    eexists _, _. split_and!.
    + rewrite list_lookup_fmap, Hi. reflexivity.
    + rewrite list_lookup_fmap, Hj. reflexivity.
    + intros Hmiss. rewrite cell_at_groupby_mean.
      destruct (decide _) as [|Hg]; [apply nan_is_nan|].
      apply group_nonempty in Hg as (r & Hr & Hd & Hn). destruct (Hmiss r Hr). done.
    + intros Hin%group_nonempty. rewrite cell_at_groupby_mean.
      destruct (decide _); done.
Qed.

Lemma surface_is_grid_witness :
  exists (x y : list Z) (z : list (list float)),
    pd.surface (pd.concat (take 3 (cv_results_params sample_fitted))
                          (cv_results_mean_test_score sample_fitted))
      = inr (x, y, z) /\
    (StronglySorted Z.lt x /\
     forall n, n ∈ x <->
               n ∈ pd.sr_n_estimators <$>
                   pd.concat (take 3 (cv_results_params sample_fitted))
                             (cv_results_mean_test_score sample_fitted)) /\
    (StronglySorted Z.lt y /\
     forall d, d ∈ y <->
               d ∈ pd.sr_max_depth <$>
                   pd.concat (take 3 (cv_results_params sample_fitted))
                             (cv_results_mean_test_score sample_fitted)) /\
    length z = length y /\
    Forall (fun zrow => length zrow = length x) z /\
    (forall i j d n, y !! i = Some d -> x !! j = Some n ->
       exists zrow c,
         z !! i = Some zrow /\ zrow !! j = Some c /\
         ((forall r,
             r ∈ pd.concat (take 3 (cv_results_params sample_fitted))
                           (cv_results_mean_test_score sample_fitted) ->
             ~ (pd.sr_max_depth r = d /\ pd.sr_n_estimators r = n)) ->
          PrimFloat.is_nan c = true) /\
         ((exists r,
             r ∈ pd.concat (take 3 (cv_results_params sample_fitted))
                           (cv_results_mean_test_score sample_fitted) /\
             pd.sr_max_depth r = d /\ pd.sr_n_estimators r = n) ->
          c = pd.nanmean
                (pd.group (pd.concat (take 3 (cv_results_params sample_fitted))
                                     (cv_results_mean_test_score sample_fitted)) d n))).
Proof.
  apply (surface_is_grid (pd.concat (take 3 (cv_results_params sample_fitted))
                                    (cv_results_mean_test_score sample_fitted))).
  vm_compute. discriminate.
Defined.

(** ** The report, had it been given values

    [classification_report] itself treats a class without predictions as
    the claim describes; the script never gets to call it. *)

Lemma class_without_predictions (pairs : list (Z * Z)) (c : Z) :
  sklearn.pred_sum pairs c = 0%nat ->
  precision (sklearn.class_metrics pairs c) = 0%float /\
  (sklearn.true_sum pairs c = 0%nat -> recall (sklearn.class_metrics pairs c) = 0%float).
Proof.
  intros Hp. unfold sklearn.class_metrics, sklearn.prf_divide. simpl. rewrite Hp.
  split; [reflexivity|]. intros ->. reflexivity.
Qed.

Example report_with_absent_class :
  sklearn.classification_report [Int64 0; Int64 0; Int64 0] [0; 0; 0] [0; 1] =
  inr (list_to_map
         [("0", {| precision := 1; recall := 1; f1_score := 1; support := 3 |});
          ("1", {| precision := 0; recall := 0; f1_score := 0; support := 0 |})],
       ["Precision and F-score are ill-defined and being set to 0.0 in labels with no predicted samples";
        "Recall and F-score are ill-defined and being set to 0.0 in labels with no true samples"]).
Proof. vm_compute. reflexivity. Qed.

(** Labels stored as floats that hold whole numbers are discrete labels
    like integers; a fractional label is rejected as continuous. *)
Example float_labels :
  sklearn.accuracy_score [Float64 1; Float64 0; Int64 1] [1; 1; 1] = inr (2 / 3)%float /\
  sklearn.accuracy_score [Float64 0.5; Int64 1] [1; 1]
    = inl (ValueError "continuous is not supported").
Proof. vm_compute. split; reflexivity. Qed.

(** The statistics of a feature leave NaN out. *)
Example mean_skips_nan :
  sklearn.mean [1; nan; 3]%float = 2%float /\ sklearn.variance [1; nan; 3]%float = 1%float.
Proof. vm_compute. split; reflexivity. Qed.

(** The default sidebar on a frame of 300 rows, seen from the script: the
    search is fitted on 220 rows. *)
Example default_split_in_script :
  exists g X_train Y_train,
    snd (before_fit identity_world (script default_sidebar (sample_frame 300) true))
      = AtFit g X_train Y_train /\
    length X_train = 220%nat /\ length Y_train = 220%nat.
Proof.
  pose (r := snd (before_fit identity_world (script default_sidebar (sample_frame 300) true))).
  exists (match r with
          | AtFit g _ _ => g
          | _ => model_search default_sidebar
                   {| max_features := []; n_estimators := []; max_depth := [] |}
          end),
         (match r with AtFit _ X _ => X | _ => [] end),
         (match r with AtFit _ _ Y => Y | _ => [] end).
  fold r. vm_compute. split_and!; reflexivity.
Qed.

(** * Further properties of the script *)

(** ** The grid on every sidebar the widgets can deliver *)

Lemma default_sidebar_valid : sidebar_valid default_sidebar.
Proof.
  unfold sidebar_valid, on_slider; simpl. split_and!; try lia.
  - by exists 6.
  - intros f Hf. apply list_elem_of_singleton in Hf as ->. apply list_elem_of_here.
  - apply list_elem_of_here.
  - apply list_elem_of_here.
Qed.

Lemma arange_bounds (start stop step : Z) (l : list Z) :
  0 < step ->
  np.arange start stop step = Some l ->
  Forall (fun x => start <= x < stop) l.
Proof.
  intros Hstep Hl. apply Forall_forall. intros x Hx.
  apply list_elem_of_lookup in Hx as [i Hi].
  destruct (arange_lookup start stop step Hstep l i x Hl Hi) as [-> Hlt].
  split; [nia | done].
Qed.

(** X1.  For every sidebar the widgets can deliver, lines 44-46 raise
    nothing; the grid carries the [max_features] selection as it is; both
    numeric dimensions start at the lower end of their slider; every
    [n_estimators] candidate lies in [0, 500 + step) and every depth
    candidate between 5 and 17. *)
Theorem valid_sidebar_grid (s : Sidebar) :
  sidebar_valid s ->
  exists grid,
    param_grid s = Some grid /\
    max_features grid = parameter_max_features s /\
    head (n_estimators grid) = Some (fst (parameter_n_estimators s)) /\
    head (max_depth grid) = Some (fst (parameter_max_depth s)) /\
    Forall (fun n => 0 <= n < 500 + parameter_n_estimators_step s) (n_estimators grid) /\
    Forall (fun d => 5 <= d <= 17) (max_depth grid).
Proof.
  intros (_ & Hne & Hne500 & Hnes & _ & Hmd & Hmd15 & Hmds & _).
  destruct (param_grid_defined s ltac:(lia) ltac:(lia)) as (ne & md & Hner & Hmdr & Hgrid).
  eexists. split; [exact Hgrid|]. simpl.
  unfold n_estimators_range in Hner. unfold max_depth_range in Hmdr.
  split_and!.
  - reflexivity.
  - eapply arange_head; [| |exact Hner]; lia.
  - eapply arange_head; [| |exact Hmdr]; lia.
  - eapply Forall_impl; [eapply arange_bounds; [|exact Hner]; lia|].
    intros n Hn. simpl in Hn. lia.
  - eapply Forall_impl; [eapply arange_bounds; [|exact Hmdr]; lia|].
    intros d Hd. simpl in Hd. lia.
Qed.

Lemma valid_sidebar_grid_witness :
  exists grid,
    param_grid default_sidebar = Some grid /\
    max_features grid = parameter_max_features default_sidebar /\
    head (n_estimators grid) = Some (fst (parameter_n_estimators default_sidebar)) /\
    head (max_depth grid) = Some (fst (parameter_max_depth default_sidebar)) /\
    Forall (fun n => 0 <= n < 500 + parameter_n_estimators_step default_sidebar)
           (n_estimators grid) /\
    Forall (fun d => 5 <= d <= 17) (max_depth grid).
Proof. apply (valid_sidebar_grid default_sidebar), default_sidebar_valid. Defined.

(** ** The criterion selection *)

(** X3.  The value of the "Criterion" select box reaches neither the
    forest nor anything else: a run shows the same page and ends the same
    way whatever criterion is selected. *)
Theorem criterion_has_no_effect
    (w : World) (s : Sidebar) (df : DataFrame) (clicked : bool) (c : string) :
  run w (script (with_criterion s c) df clicked) = run w (script s df clicked).
Proof.
  assert (param_grid (with_criterion s c) = param_grid s) as Hg by reflexivity.
  unfold script. rewrite Hg. destruct (param_grid s) as [grid|]; [|reflexivity].
  destruct clicked; [|reflexivity].
  cbn [bind emit run]. rewrite !run_bind, !build_model_stops. reflexivity.
Qed.

(** ** The split as a partition *)

Lemma safe_indexing_Forall2 {A : Type} (a : list A) (indices : list nat) (r : list A) :
  sklearn.safe_indexing a indices = inr r <->
  Forall2 (fun (i : nat) x => a !! i = Some x) indices r.
Proof.
  unfold sklearn.safe_indexing. rewrite <- mapM_Some.
  destruct (mapM _ indices); split; intros H; simplify_eq; done.
Qed.


Lemma safe_indexing_app {A : Type} (a : list A) (i1 i2 : list nat) (r1 r2 : list A) :
  sklearn.safe_indexing a i1 = inr r1 ->
  sklearn.safe_indexing a i2 = inr r2 ->
  sklearn.safe_indexing a (i1 ++ i2)%list = inr (r1 ++ r2)%list.
Proof.
  rewrite !safe_indexing_Forall2. apply Forall2_app.
Qed.

Lemma safe_indexing_zip {A B : Type} (a : list A) (b : list B) (indices : list nat)
    (ra : list A) (rb : list B) :
  sklearn.safe_indexing a indices = inr ra ->
  sklearn.safe_indexing b indices = inr rb ->
  sklearn.safe_indexing (zip a b) indices = inr (zip ra rb).
Proof.
  rewrite !safe_indexing_Forall2. intros Ha. revert rb.
  induction Ha as [|i x idx ra Hix _ IH]; intros rb Hb; inversion Hb; subst; simpl.
  - constructor.
  - constructor; [|by apply IH]. by apply lookup_zip_Some.
Qed.

Lemma safe_indexing_all_rows_from {A : Type} (pre a : list A) :
  Forall2 (fun (i : nat) x => (pre ++ a)%list !! i = Some x) (seq (length pre) (length a)) a.
Proof.
  revert pre. induction a as [|x a IH]; intros pre; simpl; constructor.
  - by rewrite list_lookup_middle.
  - specialize (IH (pre ++ [x])%list).
    rewrite length_app, <- (assoc_L (++)) in IH. simpl in IH.
    by rewrite Nat.add_1_r in IH.
Qed.

Lemma safe_indexing_all_rows {A : Type} (a : list A) :
  sklearn.safe_indexing a (seq 0 (length a)) = inr a.
Proof. apply safe_indexing_Forall2, (safe_indexing_all_rows_from []). Qed.

Lemma safe_indexing_Permutation {A : Type} (a : list A) (i1 i2 : list nat) (r1 : list A) :
  i1 ≡ₚ i2 ->
  sklearn.safe_indexing a i1 = inr r1 ->
  exists r2, sklearn.safe_indexing a i2 = inr r2 /\ r1 ≡ₚ r2.
Proof.
  intros Hperm. revert r1.
  induction Hperm as [|i i1 i2 _ IH|i j idx|i1 i2 i3 _ IH1 _ IH2]; intros r1.
  - intros H. exists r1. by split.
  - rewrite safe_indexing_Forall2. intros Hr. inversion Hr as [|? x ? r Hi Hrest]; subst.
    apply safe_indexing_Forall2 in Hrest. destruct (IH _ Hrest) as (r2 & Hr2 & Hp).
    exists (x :: r2). split; [|by constructor].
    apply safe_indexing_Forall2. constructor; [done|]. by apply safe_indexing_Forall2.
  - rewrite safe_indexing_Forall2. intros Hr.
    inversion Hr as [|? x ? r Hi Hrest]; subst.
    inversion Hrest as [|? y ? r' Hj Hrest']; subst.
    exists (y :: x :: r'). split; [|apply perm_swap].
    apply safe_indexing_Forall2. by repeat constructor.
  - intros H1. destruct (IH1 _ H1) as (r2 & H2 & Hp12).
    destruct (IH2 _ H2) as (r3 & H3 & Hp23). exists r3. split; [done|].
    by etrans.
Qed.

(** What [train_test_split] returns under a generator that hands out a
    permutation of the row numbers: the rows at the first [test_size]
    indices drawn are the test rows, the rows at the other indices the
    training rows. *)
Lemma train_test_split_run {A B : Type} (w : World) (X : list A) (Y : list B) (test_size : Z) :
  length X = length Y ->
  0 < test_size < Z.of_nat (length X) ->
  rng_permutation w (length X) ≡ₚ seq 0 (length X) ->
  exists X_train X_test Y_train Y_test,
    run w (sklearn.train_test_split X Y test_size) = ([], inr (X_train, X_test, Y_train, Y_test)) /\
    sklearn.safe_indexing X (skipn (Z.to_nat test_size) (rng_permutation w (length X)))
      = inr X_train /\
    sklearn.safe_indexing X (take (Z.to_nat test_size) (rng_permutation w (length X)))
      = inr X_test /\
    sklearn.safe_indexing Y (skipn (Z.to_nat test_size) (rng_permutation w (length X)))
      = inr Y_train /\
    sklearn.safe_indexing Y (take (Z.to_nat test_size) (rng_permutation w (length X)))
      = inr Y_test.
Proof.
  intros Hlen Hts Hperm.
  set (perm := rng_permutation w (length X)) in *.
  assert (length perm = length X) as Hpl
    by (rewrite (Permutation_length Hperm); apply length_seq).
  assert (Forall (fun i => (i < length X)%nat) perm) as Hrange.
  { apply Forall_forall. intros i Hi. rewrite Hperm in Hi.
    apply elem_of_seq in Hi. lia. }
  set (n_test := Z.to_nat test_size).
  assert (take (length X - n_test) (skipn n_test perm) = skipn n_test perm) as Htake
    by (apply take_ge; rewrite length_drop; lia).
  assert (Forall (fun i => (i < length X)%nat) (take n_test perm)) as Hte
    by (by apply Forall_take).
  assert (Forall (fun i => (i < length X)%nat) (skipn n_test perm)) as Htr
    by (by apply Forall_drop).
  destruct (safe_indexing_in_range X _ Htr) as [X_train HXtr].
  destruct (safe_indexing_in_range X _ Hte) as [X_test HXte].
  rewrite Hlen in Htr, Hte.
  destruct (safe_indexing_in_range Y _ Htr) as [Y_train HYtr].
  destruct (safe_indexing_in_range Y _ Hte) as [Y_test HYte].
  exists X_train, X_test, Y_train, Y_test. split; [|done].
  unfold sklearn.train_test_split.
  destruct (decide (length X = length Y)); [|done].
  rewrite validate_shuffle_split_int by done.
  simpl. fold perm n_test. rewrite Htake.
  rewrite HXtr. simpl. rewrite HXte. simpl. rewrite HYtr. simpl. rewrite HYte.
  reflexivity.
Qed.

(** X4.  Under a generator that hands out a permutation of the row
    numbers, [train_test_split] as [model] calls it partitions the data:
    the test pairs followed by the training pairs are a rearrangement of
    the input (feature row, label) pairs, so no row is lost, none is used
    twice, and every row keeps its own label. *)
Theorem split_is_partition {A B : Type} (w : World) (X : list A) (Y : list B) (test_size : Z) :
  length X = length Y ->
  0 < test_size < Z.of_nat (length X) ->
  rng_permutation w (length X) ≡ₚ seq 0 (length X) ->
  exists X_train X_test Y_train Y_test,
    run w (sklearn.train_test_split X Y test_size) = ([], inr (X_train, X_test, Y_train, Y_test)) /\
    length X_train = length Y_train /\
    length X_test = length Y_test /\
    (zip X_test Y_test ++ zip X_train Y_train)%list ≡ₚ zip X Y.
Proof.
  intros Hlen Hts Hperm.
  destruct (train_test_split_run w X Y test_size Hlen Hts Hperm)
    as (X_train & X_test & Y_train & Y_test & Hrun & HXtr & HXte & HYtr & HYte).
  exists X_train, X_test, Y_train, Y_test. split; [done|].
  split; [|split].
  - apply safe_indexing_length in HXtr, HYtr. congruence.
  - apply safe_indexing_length in HXte, HYte. congruence.
  - pose proof (safe_indexing_zip _ _ _ _ _ HXtr HYtr) as Htr.
    pose proof (safe_indexing_zip _ _ _ _ _ HXte HYte) as Hte.
    pose proof (safe_indexing_app _ _ _ _ _ Hte Htr) as Hall.
    rewrite take_drop in Hall.
    destruct (safe_indexing_Permutation _ _ _ _ Hperm Hall) as (r & Hr & Hp).
    assert (length (zip X Y) = length X) as Hz by (rewrite length_zip; lia).
    rewrite <- Hz, safe_indexing_all_rows in Hr. by simplify_eq.
Qed.

Lemma split_is_partition_witness :
  exists X_train X_test Y_train Y_test,
    run reversed_world (sklearn.train_test_split [10; 20; 30; 40; 50] ["a"; "b"; "c"; "d"; "e"] 2)
      = ([], inr (X_train, X_test, Y_train, Y_test)) /\
    length X_train = length Y_train /\
    length X_test = length Y_test /\
    (zip X_test Y_test ++ zip X_train Y_train)%list
      ≡ₚ zip [10; 20; 30; 40; 50] ["a"; "b"; "c"; "d"; "e"].
Proof.
  apply (split_is_partition reversed_world [10; 20; 30; 40; 50] ["a"; "b"; "c"; "d"; "e"] 2).
  - reflexivity.
  - simpl. lia.
  - symmetry. exact (Permutation_rev (seq 0 5)).
Defined.

(** ** Shapes through the standardisation *)

Lemma check_array_spec (X : list (list float)) (p : nat) :
  sklearn.check_array X = inr p <->
  X <> [] /\ Forall (fun r : list float => length r = p) X.
Proof.
  unfold sklearn.check_array. destruct X as [|r X].
  - split; [discriminate | by intros [? _]].
  - destruct (decide _) as [Hall|Hnot]; split.
    + intros [= <-]. by split.
    + intros [_ Hp]. f_equal. by inversion Hp.
    + discriminate.
    + intros [_ Hp]. destruct Hnot.
      assert (length r = p) as -> by (by inversion Hp). done.
Qed.

Lemma length_scale_row (m s : list float) (r : list float) (p : nat) :
  length m = p -> length s = p -> length r = p ->
  length (sklearn.scale_row m s r) = p.
Proof.
  intros Hm Hs Hr. unfold sklearn.scale_row.
  rewrite length_zip_with, length_zip. lia.
Qed.

Lemma fit_spec (sc0 : sklearn.StandardScaler) (X : list (list float)) (p : nat) :
  sklearn.check_array X = inr p ->
  exists sc m v sd,
    sklearn.fit sc0 X = inr sc /\
    sklearn.mean_ sc = Some m /\ sklearn.var_ sc = Some v /\ sklearn.scale_ sc = Some sd /\
    length m = p /\ length v = p /\ length sd = p.
Proof.
  intros Hp. unfold sklearn.fit. rewrite Hp.
  eexists _, _, _, _. split; [reflexivity|]. simpl.
  split_and!; try reflexivity;
    unfold sklearn.feature_columns; by rewrite !length_fmap, length_seq.
Qed.


Lemma transform_inv (sc : sklearn.StandardScaler) (X X' : list (list float)) :
  sklearn.transform sc X = inr X' ->
  exists m sd,
    sklearn.mean_ sc = Some m /\ sklearn.scale_ sc = Some sd /\
    sklearn.check_array X = inr (length m) /\
    X' = sklearn.scale_row m sd <$> X.
Proof.
  unfold sklearn.transform.
  destruct (sklearn.mean_ sc) as [m|]; [|discriminate].
  destruct (sklearn.scale_ sc) as [sd|]; [|discriminate].
  destruct (sklearn.check_array X) as [e|p]; [discriminate|].
  destruct (decide (p = length m)) as [->|]; [|discriminate].
  intros [= <-]. by exists m, sd.
Qed.


(** X5.  Whenever lines 69-71 complete, both partitions keep their
    shape: as many rows as before, and one common width for the training
    rows, the test rows, their standardised versions and the three fitted
    parameter vectors.  In particular they complete only if the test
    features have the width of the training features. *)
Theorem standardization_keeps_shape
    (X_train X_test X_train' X_test' : list (list float)) (sc : sklearn.StandardScaler) :
  standardization X_train X_test = inr (sc, X_train', X_test') ->
  length X_train' = length X_train /\
  length X_test' = length X_test /\
  exists p m v sd,
    sklearn.mean_ sc = Some m /\ sklearn.var_ sc = Some v /\ sklearn.scale_ sc = Some sd /\
    length m = p /\ length v = p /\ length sd = p /\
    Forall (fun r : list float => length r = p) X_train /\
    Forall (fun r : list float => length r = p) X_test /\
    Forall (fun r : list float => length r = p) X_train' /\
    Forall (fun r : list float => length r = p) X_test'.
Proof.
  unfold standardization, sklearn.fit_transform.
  destruct (sklearn.fit sklearn.new_StandardScaler X_train) as [e|sc1] eqn:Hfit;
    [discriminate|].
  destruct (sklearn.transform sc1 X_train) as [e|A] eqn:Htr; [discriminate|].
  destruct (sklearn.transform sc1 X_test) as [e|B] eqn:Hte; [discriminate|].
  intros [= <- <- <-].
  assert (exists p, sklearn.check_array X_train = inr p) as [p Hc].
  { unfold sklearn.fit in Hfit. destruct (sklearn.check_array X_train); [discriminate|].
    by eexists. }
  destruct (fit_spec sklearn.new_StandardScaler X_train p Hc)
    as (sc & m & v & sd & Hfit' & Hm & Hv & Hs & Hlm & Hlv & Hls).
  assert (sc = sc1) as -> by congruence.
  apply transform_inv in Htr as (m1 & sd1 & Hm1 & Hs1 & Hc1 & ->).
  apply transform_inv in Hte as (m2 & sd2 & Hm2 & Hs2 & Hc2 & ->).
  assert (m1 = m) as -> by congruence. assert (m2 = m) as -> by congruence.
  assert (sd1 = sd) as -> by congruence. assert (sd2 = sd) as -> by congruence.
  apply check_array_spec in Hc1 as [_ H1]. apply check_array_spec in Hc2 as [_ H2].
  rewrite Hlm in H1, H2.
  rewrite !length_fmap. split; [done|]. split; [done|].
  exists p, m, v, sd. split_and!; try done.
  - apply Forall_fmap. eapply Forall_impl; [exact H1|].
    intros r Hr. by apply length_scale_row.
  - apply Forall_fmap. eapply Forall_impl; [exact H2|].
    intros r Hr. by apply length_scale_row.
Qed.

Lemma standardization_keeps_shape_witness :
  length [[-1]; [1]]%float = length [[1]; [3]]%float /\
  length [[5]]%float = length [[7]]%float /\
  exists p m v sd,
    sklearn.mean_ {| sklearn.mean_ := Some [2%float];
                     sklearn.var_ := Some [1%float];
                     sklearn.scale_ := Some [1%float] |} = Some m /\
    sklearn.var_ {| sklearn.mean_ := Some [2%float];
                    sklearn.var_ := Some [1%float];
                    sklearn.scale_ := Some [1%float] |} = Some v /\
    sklearn.scale_ {| sklearn.mean_ := Some [2%float];
                      sklearn.var_ := Some [1%float];
                      sklearn.scale_ := Some [1%float] |} = Some sd /\
    length m = p /\ length v = p /\ length sd = p /\
    Forall (fun r : list float => length r = p) [[1]; [3]]%float /\
    Forall (fun r : list float => length r = p) [[7]]%float /\
    Forall (fun r : list float => length r = p) [[-1]; [1]]%float /\
    Forall (fun r : list float => length r = p) [[5]]%float.
Proof.
  apply (standardization_keeps_shape [[1]; [3]]%float [[7]]%float).
  vm_compute. reflexivity.
Defined.

(** ** Data errors and the way to the search *)

Lemma column_position_Some (df : DataFrame) (name : string) :
  name ∈ columns df ->
  exists p, pd.column_position df name = Some p /\ (p < length (columns df))%nat.
Proof.
  intros Hin. unfold pd.column_position.
  destruct (list_find_elem_of (fun c => c = name) (columns df) name Hin eq_refl)
    as [[p c] Hfind].
  rewrite Hfind. exists p. split; [reflexivity|].
  apply list_find_Some in Hfind as (Hp & _). by eapply lookup_lt_Some.
Qed.

Lemma column_position_None (df : DataFrame) (name : string) :
  name ∉ columns df -> pd.column_position df name = None.
Proof.
  intros Hnot. unfold pd.column_position.
  destruct (list_find _ (columns df)) as [[p c]|] eqn:Hfind; [|reflexivity].
  apply list_find_Some in Hfind as (Hp & -> & _).
  destruct Hnot. by eapply list_elem_of_lookup_2.
Qed.

Lemma getitem_rectangular (df : DataFrame) (name : string) :
  rectangular df -> name ∈ columns df ->
  exists Y, pd.getitem df name = inr Y /\ length Y = length (rows df).
Proof.
  intros Hrect Hin. destruct (column_position_Some df name Hin) as (p & Hp & Hlt).
  unfold pd.getitem. rewrite Hp.
  destruct (mapM_is_Some_2 (fun r : list cell => r !! p) (rows df)) as [Y HY].
  - eapply Forall_impl; [exact Hrect|]. intros r Hr. simpl in *.
    apply lookup_lt_is_Some_2. lia.
  - rewrite HY. exists Y. split; [reflexivity|]. symmetry. by eapply length_mapM.
Qed.


Lemma drop_rectangular (df : DataFrame) (name : string) :
  rectangular df -> name ∈ columns df ->
  exists X,
    pd.drop df name = inr X /\
    length (rows X) = length (rows df) /\
    Forall (fun r : list cell => length r = (length (columns df) - 1)%nat) (rows X).
Proof.
  intros Hrect Hin. destruct (column_position_Some df name Hin) as (p & Hp & Hlt).
  unfold pd.drop. rewrite Hp. eexists. split; [reflexivity|]. simpl.
  split; [by rewrite length_fmap|].
  apply Forall_fmap. eapply Forall_impl; [exact Hrect|].
  intros r Hr. simpl in *. rewrite length_delete; [lia|].
  apply lookup_lt_is_Some_2. lia.
Qed.


Lemma run_model_failed (w : World) (s : Sidebar) (grid : ParamGrid) (df : DataFrame)
    (out : list output) (e : exn) :
  run w (model_data s df) = (out, inl e) -> run w (model s grid df) = (out, inl e).
Proof. intros H. unfold model. by rewrite run_bind, H. Qed.

Lemma run_script_model_failed (w : World) (s : Sidebar) (grid : ParamGrid)
    (df dataset : DataFrame) (e : exn) :
  param_grid s = Some grid ->
  get_dummies w df dummy_columns = inr dataset ->
  run w (model_data s dataset) = ([], inl e) ->
  run w (script s df true) = (page_header df, inl e).
Proof.
  intros Hg Hd Hm.
  rewrite (run_script_clicked w s df grid Hg), build_model_stops.
  cbn [pd_get_dummies bind run]. rewrite Hd.
  rewrite run_bind, (run_model_failed w s grid dataset [] e Hm).
  by rewrite app_nil_r.
Qed.

(** X6.  When the encoded frame has no [target] column, pressing the
    button shows the page header and then ends with [KeyError: 'target'];
    nothing is split, fitted or plotted. *)
Theorem missing_target_raises_KeyError
    (w : World) (s : Sidebar) (grid : ParamGrid) (df dataset : DataFrame) :
  param_grid s = Some grid ->
  get_dummies w df dummy_columns = inr dataset ->
  "target" ∉ columns dataset ->
  run w (script s df true) = (page_header df, inl (KeyError "target")) /\
  snd (before_search w (script s df true)) = Raised (KeyError "target").
Proof.
  intros Hg Hd Hnot.
  assert (run w (model_data s dataset) = ([], inl (KeyError "target"))) as Hm.
  { unfold model_data, pd.getitem. by rewrite (column_position_None _ _ Hnot). }
  split.
  - by apply (run_script_model_failed w s grid df dataset).
  - by rewrite before_search_script, Hg, Hd, Hm.
Qed.

Lemma missing_target_raises_KeyError_witness :
  run identity_world (script default_sidebar (unlabelled_frame 3) true)
    = (page_header (unlabelled_frame 3), inl (KeyError "target")) /\
  snd (before_search identity_world (script default_sidebar (unlabelled_frame 3) true))
    = Raised (KeyError "target").
Proof.
  apply (missing_target_raises_KeyError identity_world default_sidebar default_grid
           (unlabelled_frame 3) (encoded (unlabelled_frame 3))).
  - reflexivity.
  - vm_compute. reflexivity.
  - apply (bool_decide_unpack ("target" ∉ columns (encoded (unlabelled_frame 3)))).
    vm_compute. reflexivity.
Defined.

(** X7.  A frame with at most [split_size] rows cannot be split: on a
    rectangular frame that has a [target] column, pressing the button
    shows the page header and ends with the [ValueError] of
    [train_test_split], since the slider's value is taken as a number of
    test rows. *)
Theorem small_frame_raises_ValueError
    (w : World) (s : Sidebar) (grid : ParamGrid) (df dataset : DataFrame) :
  param_grid s = Some grid ->
  get_dummies w df dummy_columns = inr dataset ->
  rectangular dataset ->
  "target" ∈ columns dataset ->
  Z.of_nat (length (rows dataset)) <= split_size s ->
  run w (script s df true) =
    (page_header df,
     inl (ValueError "test_size should be positive and smaller than the number of samples")).
Proof.
  intros Hg Hd Hrect Hin Hsmall.
  apply (run_script_model_failed w s grid df dataset); [done..|].
  destruct (getitem_rectangular dataset "target" Hrect Hin) as (Y & HY & HlY).
  destruct (drop_rectangular dataset "target" Hrect Hin) as (X & HX & HlX & _).
  unfold model_data. rewrite HY, HX. cbn [lift bind].
  unfold sklearn.train_test_split.
  destruct (decide (length (rows X) = length Y)) as [_|Hne]; [|congruence].
  unfold sklearn.validate_shuffle_split.
  destruct (decide _) as [_|Hok]; [reflexivity|].
  destruct Hok. left. lia.
Qed.

Lemma small_frame_raises_ValueError_witness :
  run identity_world (script default_sidebar (sample_frame 80) true) =
    (page_header (sample_frame 80),
     inl (ValueError "test_size should be positive and smaller than the number of samples")).
Proof.
  apply (small_frame_raises_ValueError identity_world default_sidebar default_grid
           (sample_frame 80) (encoded (sample_frame 80))).
  - reflexivity.
  - vm_compute. reflexivity.
  - apply (bool_decide_unpack (rectangular (encoded (sample_frame 80)))).
    vm_compute. reflexivity.
  - apply (bool_decide_unpack ("target" ∈ columns (encoded (sample_frame 80)))).
    vm_compute. reflexivity.
  - vm_compute. discriminate.
Defined.



Lemma sample_frame_rectangular (n : nat) : rectangular (sample_frame n).
Proof.
  unfold rectangular, sample_frame. simpl. apply Forall_fmap, Forall_forall.
  by intros i _.
Qed.


(** ** A whole run of the button on well-formed data *)

Lemma int_labels_defined (y : list cell) :
  Forall is_int y -> exists yt, mapM label_of_cell y = Some yt.
Proof.
  intros Hy.
  destruct (mapM_is_Some_2 label_of_cell y) as [yt Hyt]; [|by exists yt].
  eapply Forall_impl; [exact Hy|]. intros [z|f] Hc; simpl in *; [by eexists | done].
Qed.

Lemma accuracy_score_defined (y_true : list cell) (y_pred : list Z) :
  Forall is_int y_true -> length y_true = length y_pred ->
  exists acc, sklearn.accuracy_score y_true y_pred = inr acc.
Proof.
  intros Hint Hlen. destruct (int_labels_defined y_true Hint) as [yt Hyt].
  unfold sklearn.accuracy_score, sklearn.check_targets.
  destruct (decide _); [|done]. rewrite Hyt. by eexists.
Qed.

Lemma concat_depths (params : list Params) (scores : list float) :
  pd.sr_max_depth <$> pd.concat params scores = p_max_depth <$> params.
Proof.
  unfold pd.concat.
  assert (length params <= length (scores ++ replicate (length params - length scores) nan))%nat
    as Hlen by (rewrite length_app, length_replicate; lia).
  revert Hlen. generalize (scores ++ replicate (length params - length scores) nan)%list.
  induction params as [|p params IH]; intros [|a k] Hlen; simpl in *; try lia; try done.
  f_equal. apply IH. lia.
Qed.

Lemma concat_estimators (params : list Params) (scores : list float) :
  pd.sr_n_estimators <$> pd.concat params scores = p_n_estimators <$> params.
Proof.
  unfold pd.concat.
  assert (length params <= length (scores ++ replicate (length params - length scores) nan))%nat
    as Hlen by (rewrite length_app, length_replicate; lia).
  revert Hlen. generalize (scores ++ replicate (length params - length scores) nan)%list.
  induction params as [|p params IH]; intros [|a k] Hlen; simpl in *; try lia; try done.
  f_equal. apply IH. lia.
Qed.

(** Lines 93-100 on the results of a search with at least one grid
    point: they raise nothing, and the axes of the chart are the distinct
    values of the two parameters, whatever the scores are. *)
Lemma surface_of_concat (params : list Params) (scores : list float) :
  params <> [] ->
  exists z,
    pd.surface (pd.concat params scores) =
    inr (sort_uniq (p_n_estimators <$> params), sort_uniq (p_max_depth <$> params), z).
Proof.
  intros Hne.
  assert (pd.concat params scores <> []) as Hc.
  { intros Hnil. apply (f_equal (fmap pd.sr_max_depth)) in Hnil.
    rewrite concat_depths in Hnil. by apply fmap_nil_inv in Hnil. }
  unfold pd.surface. destruct (pd.concat params scores) as [|r t] eqn:Ht; [done|].
  unfold pd.pivot. rewrite groupby_mean_keys.
  destruct (decide (NoDup _)) as [_|Hdup]; [|destruct Hdup; apply NoDup_group_keys].
  rewrite groupby_mean_estimators, groupby_mean_depths.
  rewrite <- Ht, concat_estimators, concat_depths. by eexists.
Qed.

(** The page of a run in which lines 62-71 complete, the constructor
    accepts the grid and [fit] returns a result for the training arrays
    it is handed. *)
Lemma run_script_fitted
    (w : World) (s : Sidebar) (grid : ParamGrid) (df dataset : DataFrame)
    (A B : list (list float)) (Y_train Y_test : list cell) (fitted : Fitted) :
  param_grid s = Some grid ->
  get_dummies w df dummy_columns = inr dataset ->
  run w (model_data s dataset) = ([], inr (A, B, Y_train, Y_test)) ->
  gs_init w (model_search s grid) = None ->
  gs_fit w (model_search s grid) A Y_train = inr fitted ->
  Forall is_int Y_test ->
  length Y_test = length B ->
  cv_results_params fitted <> [] ->
  exists (acc : float) (z : list (list float)),
    sklearn.accuracy_score Y_test (predict_one fitted <$> B) = inr acc /\
    run w (script s df true) =
      ((page_header df ++
        [st_subheader "Model Performance";
         st_write "Accuracy score of the given model";
         st_info acc;
         st_write_best (best_params_ fitted) (best_score_ fitted);
         st_subheader "Model Parameters";
         st_write_params (model_search s grid);
         st_plotly_chart (sort_uniq (p_n_estimators <$> cv_results_params fitted))
                         (sort_uniq (p_max_depth <$> cv_results_params fitted)) z;
         st_subheader "Classification Report"])%list,
       inl (NameError "Y_test")).
Proof.
  intros Hg Hd Hrun Hinit Hfitted Hint Hlen Hparams.
  destruct (accuracy_score_defined Y_test (predict_one fitted <$> B) Hint)
    as [acc Hacc]; [by rewrite length_fmap|].
  destruct (surface_of_concat (cv_results_params fitted) (cv_results_mean_test_score fitted)
              Hparams) as [z Hz].
  exists acc, z. split; [exact Hacc|].
  rewrite (run_script_clicked w s df grid Hg), build_model_stops.
  cbn [pd_get_dummies bind run]. rewrite Hd.
  rewrite run_bind. unfold model. rewrite run_bind, Hrun.
  cbn [new_GridSearchCV bind run]. fold (model_search s grid). rewrite Hinit.
  cbn [GridSearchCV_fit bind run]. rewrite Hfitted.
  cbn [emit bind run]. rewrite Hacc. cbn [lift emit bind run]. rewrite Hz.
  reflexivity.
Qed.



(** ** Determinism under the seed *)

Lemma Forall_is_int (l : list cell) :
  forallb (fun c => match c with Int64 _ => true | Float64 _ => false end) l = true ->
  Forall is_int l.
Proof.
  induction l as [|[z|f] l IH]; simpl; intros H; [constructor| |discriminate].
  constructor; [exact Logic.I | by apply IH].
Qed.

Lemma count_Permutation {A : Type} (f : A -> bool) (l k : list A) :
  l ≡ₚ k -> sklearn.count f l = sklearn.count f k.
Proof.
  induction 1 as [|x l k _ IH|x y l|l k m _ IH1 _ IH2].
  - reflexivity.
  - by rewrite !count_cons, IH.
  - rewrite !count_cons. lia.
  - congruence.
Qed.

(** C2 (evaluation at the failing input).  Two presses of the button
    with the default sidebar (seed 42, the same grid, the same [n_jobs])
    on the same frame of 100 rows, in the same library; the runs differ
    only in the permutation that NumPy's global generator hands to
    [train_test_split], once the identity and once its reverse.  The seed
    reaches the forest only.  Whatever the library's [fit] is, it is
    asked to fit the same search on two training sets of 20 rows that
    are different data, not one set in another order (5 of the labels
    are of class 1 in the one, 10 in the other), and each page shows the
    best parameters and score that [fit] found on its own training set.
    With the sample library's search, whose result depends on the training
    labels alone, the two pages differ: accuracy 48/80 against 53/80,
    best score 0.75 against 0.5, and every cell of the score surface
    0.75 against 0.5. *)
Theorem same_seed_different_results :
  exists (X1 X2 : list (list float)) (Y1 Y2 : list cell),
    random_state (estimator (model_search default_sidebar default_grid)) = 42 /\
    (forall fit,
       snd (before_fit (library_world (fun n => seq 0 n) fit)
              (script default_sidebar (sample_frame 100) true))
         = AtFit (model_search default_sidebar default_grid) X1 Y1 /\
       snd (before_fit (library_world (fun n => rev (seq 0 n)) fit)
              (script default_sidebar (sample_frame 100) true))
         = AtFit (model_search default_sidebar default_grid) X2 Y2) /\
    length Y1 = 20%nat /\ length Y2 = 20%nat /\
    sklearn.count is_class_1 Y1 = 5%nat /\ sklearn.count is_class_1 Y2 = 10%nat /\
    ~ (Y1 ≡ₚ Y2) /\
    (forall fit f1 f2,
       fit (model_search default_sidebar default_grid) X1 Y1 = inr f1 ->
       fit (model_search default_sidebar default_grid) X2 Y2 = inr f2 ->
       cv_results_params f1 <> [] ->
       cv_results_params f2 <> [] ->
       st_write_best (best_params_ f1) (best_score_ f1)
         ∈ fst (run (library_world (fun n => seq 0 n) fit)
                    (script default_sidebar (sample_frame 100) true)) /\
       st_write_best (best_params_ f2) (best_score_ f2)
         ∈ fst (run (library_world (fun n => rev (seq 0 n)) fit)
                    (script default_sidebar (sample_frame 100) true))) /\
    fst (run identity_world (script default_sidebar (sample_frame 100) true)) =
      (page_header (sample_frame 100) ++
       [st_subheader "Model Performance";
        st_write "Accuracy score of the given model";
        st_info (48 / 80)%float;
        st_write_best {| p_max_depth := 5; p_max_features := "auto"; p_n_estimators := 10 |}
                      0.75%float;
        st_subheader "Model Parameters";
        st_write_params (model_search default_sidebar default_grid);
        st_plotly_chart [10; 20; 30; 40; 50] [5; 6; 7; 8] (replicate 4 (replicate 5 0.75%float));
        st_subheader "Classification Report"])%list /\
    fst (run reversed_world (script default_sidebar (sample_frame 100) true)) =
      (page_header (sample_frame 100) ++
       [st_subheader "Model Performance";
        st_write "Accuracy score of the given model";
        st_info (53 / 80)%float;
        st_write_best {| p_max_depth := 5; p_max_features := "auto"; p_n_estimators := 10 |}
                      0.5%float;
        st_subheader "Model Parameters";
        st_write_params (model_search default_sidebar default_grid);
        st_plotly_chart [10; 20; 30; 40; 50] [5; 6; 7; 8] (replicate 4 (replicate 5 0.5%float));
        st_subheader "Classification Report"])%list.
Proof.
  set (dataset := encoded (sample_frame 100)).
  set (d1 := model_arrays identity_world default_sidebar dataset).
  set (d2 := model_arrays reversed_world default_sidebar dataset).
  exists d1.1.1.1, d2.1.1.1, d1.1.2, d2.1.2.
  assert (sklearn.count is_class_1 d1.1.2 = 5%nat) as Hc1 by (vm_compute; reflexivity).
  assert (sklearn.count is_class_1 d2.1.2 = 10%nat) as Hc2 by (vm_compute; reflexivity).
  assert (forall permutation fit d,
            run (library_world permutation fit) (model_data default_sidebar dataset)
              = ([], inr d) ->
            Forall is_int d.2 ->
            length d.2 = length d.1.1.2 ->
            forall f,
              fit (model_search default_sidebar default_grid) d.1.1.1 d.1.2 = inr f ->
              cv_results_params f <> [] ->
              st_write_best (best_params_ f) (best_score_ f)
                ∈ fst (run (library_world permutation fit)
                           (script default_sidebar (sample_frame 100) true))) as Hshown.
  { intros permutation fit [[[A B] Ytr] Yte] Hrun Hint Hlen f Hf Hparams.
    cbn [fst snd] in Hint, Hlen, Hf.
    destruct (run_script_fitted (library_world permutation fit) default_sidebar default_grid
                (sample_frame 100) dataset A B Ytr Yte f)
      as (acc & z & _ & ->).
    - reflexivity.
    - vm_compute. reflexivity.
    - exact Hrun.
    - reflexivity.
    - exact Hf.
    - exact Hint.
    - exact Hlen.
    - exact Hparams.
    - cbn [fst]. apply elem_of_app. right.
      do 3 apply list_elem_of_further. apply list_elem_of_here. }
  split_and!.
  - reflexivity.
  - intros fit. split; vm_compute; reflexivity.
  - vm_compute. reflexivity.
  - vm_compute. reflexivity.
  - exact Hc1.
  - exact Hc2.
  - intros Hp. apply (count_Permutation is_class_1) in Hp. congruence.
  - intros fit f1 f2 Hf1 Hf2 Hp1 Hp2. split.
    + apply (Hshown (fun n => seq 0 n) fit d1).
      * vm_compute. reflexivity.
      * apply Forall_is_int. vm_compute. reflexivity.
      * vm_compute. reflexivity.
      * exact Hf1.
      * exact Hp1.
    + apply (Hshown (fun n => rev (seq 0 n)) fit d2).
      * vm_compute. reflexivity.
      * apply Forall_is_int. vm_compute. reflexivity.
      * vm_compute. reflexivity.
      * exact Hf2.
      * exact Hp2.
  - vm_compute. reflexivity.
  - vm_compute. reflexivity.
Qed.

(** ** Dropping the target column *)

Lemma lookup_delete_shift {A : Type} (l : list A) (p q : nat) :
  q <> p ->
  delete p l !! (if decide (q < p)%nat then q else (q - 1)%nat) = l !! q.
Proof.
  intros Hne. destruct (decide (q < p)%nat).
  - by apply list_lookup_delete_lt.
  - rewrite list_lookup_delete_ge by lia. f_equal. lia.
Qed.

Lemma column_position_after_drop (cols : list string) (name c : string) (p q : nat) :
  list_find (fun x => x = name) cols = Some (p, name) ->
  list_find (fun x => x = c) cols = Some (q, c) ->
  c <> name ->
  q <> p /\
  list_find (fun x => x = c) (delete p cols)
    = Some (if decide (q < p)%nat then q else (q - 1)%nat, c).
Proof.
  intros (Hp & _ & _)%list_find_Some (Hq & _ & Hmin)%list_find_Some Hne.
  assert (q <> p) as Hqp by (intros ->; congruence).
  split; [done|]. apply list_find_Some. split_and!.
  - by rewrite lookup_delete_shift.
  - reflexivity.
  - intros j y Hj Hlt. destruct (decide (j < p)%nat).
    + rewrite list_lookup_delete_lt in Hj by done.
      apply (Hmin j y Hj). destruct (decide (q < p)%nat); lia.
    + rewrite list_lookup_delete_ge in Hj by lia.
      apply (Hmin (S j) y Hj). destruct (decide (q < p)%nat); lia.
Qed.

Lemma mapM_fmap_ext {A B C : Type} (f : B -> option C) (g : A -> B) (h : A -> option C)
    (l : list A) :
  (forall x, f (g x) = h x) -> mapM f (g <$> l) = mapM h l.
Proof.
  intros Hfg. induction l as [|x l IH]; [reflexivity|].
  rewrite fmap_cons. simpl. by rewrite Hfg, IH.
Qed.

(** X12.  In a frame with distinct column labels, [df.drop([name],
    axis=1)] removes that column and nothing else: the result has no
    column of that name, and every other column is read from it cell for
    cell as from the original (a label that is missing in the one is
    missing in the other). *)
Theorem drop_keeps_other_columns (df X : DataFrame) (name c : string) :
  NoDup (columns df) ->
  pd.drop df name = inr X ->
  c <> name ->
  (name ∉ columns X) /\ pd.getitem X c = pd.getitem df c.
Proof.
  intros Hnd Hdrop Hne. unfold pd.drop, pd.column_position in Hdrop.
  destruct (list_find (fun x => x = name) (columns df)) as [[p n]|] eqn:Hp;
    [|discriminate].
  simpl in Hdrop. injection Hdrop as <-.
  pose proof Hp as (Hpn & -> & _)%list_find_Some. split.
  - simpl. intros (j & Hj)%list_elem_of_lookup.
    rewrite NoDup_alt in Hnd. destruct (decide (j < p)%nat).
    + rewrite list_lookup_delete_lt in Hj by done.
      pose proof (Hnd _ _ _ Hj Hpn). lia.
    + rewrite list_lookup_delete_ge in Hj by lia.
      pose proof (Hnd _ _ _ Hj Hpn). lia.
  - unfold pd.getitem, pd.column_position. simpl.
    destruct (list_find (fun x => x = c) (columns df)) as [[q c']|] eqn:Hq.
    + pose proof Hq as (_ & -> & _)%list_find_Some.
      destruct (column_position_after_drop _ _ _ _ _ Hp Hq Hne) as [Hqp ->]. simpl.
      rewrite (mapM_fmap_ext _ _ (fun r : list cell => r !! q)); [reflexivity|].
      intros r. by apply lookup_delete_shift.
    + destruct (list_find (fun x => x = c) (delete p (columns df))) as [[q c']|] eqn:Hq';
        [|reflexivity].
      apply list_find_Some in Hq' as (Hl & -> & _).
      apply list_elem_of_lookup_2, list_elem_of_delete_inv in Hl.
      apply list_find_None in Hq. rewrite Forall_forall in Hq.
      by destruct (Hq _ Hl).
Qed.

Lemma drop_keeps_other_columns_witness :
  ("target" ∉ columns {| columns := ["age"; "chol"];
                         rows := [[Int64 63; Float64 2.5]; [Int64 41; Float64 1]] |}) /\
  pd.getitem {| columns := ["age"; "chol"];
                rows := [[Int64 63; Float64 2.5]; [Int64 41; Float64 1]] |} "chol"
    = pd.getitem {| columns := ["age"; "target"; "chol"];
                    rows := [[Int64 63; Int64 1; Float64 2.5];
                             [Int64 41; Int64 0; Float64 1]] |} "chol".
Proof.
  apply (drop_keeps_other_columns
           {| columns := ["age"; "target"; "chol"];
              rows := [[Int64 63; Int64 1; Float64 2.5]; [Int64 41; Int64 0; Float64 1]] |}
           {| columns := ["age"; "chol"];
              rows := [[Int64 63; Float64 2.5]; [Int64 41; Float64 1]] |}
           "target" "chol").
  - simpl. apply (bool_decide_unpack (NoDup ["age"; "target"; "chol"])).
    vm_compute. reflexivity.
  - reflexivity.
  - discriminate.
Defined.
